(** * spotify_colours: palette extraction, pattern generation, rotation tracker

    A shallow embedding of [src/colours.py] and of the rotation state kept by
    [scripts/poll_playback.py], with the properties the specification states
    about them; then of the code around them ([download_url] of
    [scripts/get_playback.py], the artwork lookup of [src/spotify_client.py]
    and of the polling loop, the [.env] loader and the credentials of
    [src/auth.py]), with properties read off that code.

    Conventions of the embedding.
    - A Python [int] is a [Z]; a [bytes] value is a [list byte]; a [str] is a
      [string] holding the text in generalised UTF-8: every code point by its
      UTF-8 bytes, a lone surrogate (U+D800 to U+DFFF, which a [str] may
      hold and UTF-8 has no bytes for) by the three bytes the same scheme
      gives it. [s.encode("utf-8")] is then the bytes of the string, unless
      a surrogate is met; the length of a [str] is the number of bytes that
      start a code point; a prefix test against an ASCII literal is the
      prefix test on the bytes.
    - A call either returns or raises: [result A].
    - Code that touches the network or the file system takes a [World] and
      gives the new one back.
    - A [while] loop is a function with fuel; [None] means the fuel ran out,
      and the total wrappers come with the proof that it never does. *)

From Stdlib Require Import ZArith List Lia Floats Sorting.Sorted.
From Stdlib Require Import Strings.String Strings.Ascii Strings.Byte.
From stdpp Require Import base list strings gmap.

Local Open Scope Z_scope.

(** ** Exceptions and results *)

Inductive exn : Type :=
| ValueError (msg : string)
| IndexError
| ZeroDivisionError
| RequestException      (* requests.get failed: connection error or timeout *)
| HTTPError             (* resp.raise_for_status() on a non-success status  *)
| StreamError           (* the body broke off while it was being streamed    *)
| OSError               (* open / write / unlink refused by the file system  *)
| UnidentifiedImageError (* Image.open does not recognise the bytes           *)
| UnicodeEncodeError.    (* str.encode("utf-8") met a lone surrogate          *)

Inductive result (A : Type) : Type :=
| Return (a : A)
| Raise (e : exn).

Arguments Return {A} a.
Arguments Raise {A} e.

Definition bind {A B : Type} (r : result A) (k : A -> result B) : result B :=
  match r with
  | Return a => k a
  | Raise e => Raise e
  end.

Notation "'let*' x ':=' r 'in' k" := (bind r (fun x => k))
  (at level 10, x name, r at level 100, k at level 200).

(** ** hashlib.md5 (RFC 1321), over 32-bit words held in [Z] *)

Module MD5.

Definition mask32 : Z := 0xFFFFFFFF.

Definition add32 (x y : Z) : Z := Z.land (x + y) mask32.

Definition not32 (x : Z) : Z := Z.lxor x mask32.

Definition rotl32 (x : Z) (c : Z) : Z :=
  Z.lor (Z.land (Z.shiftl x c) mask32) (Z.shiftr x (32 - c)).

Definition Z_of_byte (b : byte) : Z := Z.of_N (Byte.to_N b).

Definition byte_of_Z (z : Z) : byte :=
  match Byte.of_N (Z.to_N (Z.land z 255)) with
  | Some b => b
  | None => x00
  end.

(** Per-round shift amounts. *)
Definition S_table : list Z :=
  [ 7; 12; 17; 22; 7; 12; 17; 22; 7; 12; 17; 22; 7; 12; 17; 22;
    5; 9; 14; 20; 5; 9; 14; 20; 5; 9; 14; 20; 5; 9; 14; 20;
    4; 11; 16; 23; 4; 11; 16; 23; 4; 11; 16; 23; 4; 11; 16; 23;
    6; 10; 15; 21; 6; 10; 15; 21; 6; 10; 15; 21; 6; 10; 15; 21 ].

(** K[i] = floor(2^32 * abs(sin(i + 1))). *)
Definition K_table : list Z :=
  [ 0xd76aa478; 0xe8c7b756; 0x242070db; 0xc1bdceee; 0xf57c0faf; 0x4787c62a; 0xa8304613; 0xfd469501;
    0x698098d8; 0x8b44f7af; 0xffff5bb1; 0x895cd7be; 0x6b901122; 0xfd987193; 0xa679438e; 0x49b40821;
    0xf61e2562; 0xc040b340; 0x265e5a51; 0xe9b6c7aa; 0xd62f105d; 0x02441453; 0xd8a1e681; 0xe7d3fbc8;
    0x21e1cde6; 0xc33707d6; 0xf4d50d87; 0x455a14ed; 0xa9e3e905; 0xfcefa3f8; 0x676f02d9; 0x8d2a4c8a;
    0xfffa3942; 0x8771f681; 0x6d9d6122; 0xfde5380c; 0xa4beea44; 0x4bdecfa9; 0xf6bb4b60; 0xbebfbc70;
    0x289b7ec6; 0xeaa127fa; 0xd4ef3085; 0x04881d05; 0xd9d4d039; 0xe6db99e5; 0x1fa27cf8; 0xc4ac5665;
    0xf4292244; 0x432aff97; 0xab9423a7; 0xfc93a039; 0x655b59c3; 0x8f0ccc92; 0xffeff47d; 0x85845dd1;
    0x6fa87e4f; 0xfe2ce6e0; 0xa3014314; 0x4e0811a1; 0xf7537e82; 0xbd3af235; 0x2ad7d2bb; 0xeb86d391 ].

(** The running state: the four chaining words. *)
Record state : Type := mkState { sA : Z; sB : Z; sC : Z; sD : Z }.

Definition init : state :=
  mkState 0x67452301 0xefcdab89 0x98badcfe 0x10325476.

(** A little-endian 32-bit word, from four bytes and back. *)
Definition word_of_bytes (bs : list byte) : Z :=
  fold_right (fun b acc => Z_of_byte b + 256 * acc) 0 bs.

Definition bytes_of_word (w : Z) : list byte :=
  [ byte_of_Z w; byte_of_Z (Z.shiftr w 8);
    byte_of_Z (Z.shiftr w 16); byte_of_Z (Z.shiftr w 24) ].

(** Cut a byte list into consecutive groups of [n]; [k] bounds the number
    of groups. *)
Fixpoint chunks (k : nat) (n : nat) (bs : list byte) : list (list byte) :=
  match k with
  | O => []
  | S k' =>
      match bs with
      | [] => []
      | _ => firstn n bs :: chunks k' n (skipn n bs)
      end
  end.

Definition words_of_block (blk : list byte) : list Z :=
  map word_of_bytes (chunks 16 4 blk).

(** Padding: a 1 bit, zeros up to 56 mod 64, then the bit length on 64 bits,
    little-endian. *)
Definition pad (msg : list byte) : list byte :=
  let n := Z.of_nat (List.length msg) in
  let zeros := Z.to_nat ((55 - n) mod 64) in
  let bits := (8 * n) mod 2 ^ 64 in
  msg ++ [x80] ++ repeat x00 zeros
      ++ map (fun i => byte_of_Z (Z.shiftr bits (8 * Z.of_nat i))) (seq 0 8).

Definition round_step (M : list Z) (st : state) (i : nat) : state :=
  let '(mkState a b c d) := st in
  let iz := Z.of_nat i in
  let '(f, g) :=
    if iz <? 16 then (Z.lor (Z.land b c) (Z.land (not32 b) d), iz)
    else if iz <? 32 then (Z.lor (Z.land d b) (Z.land (not32 d) c), (5 * iz + 1) mod 16)
    else if iz <? 48 then (Z.lxor (Z.lxor b c) d, (3 * iz + 5) mod 16)
    else (Z.lxor c (Z.lor b (not32 d)), (7 * iz) mod 16) in
  let f' := add32 (add32 (add32 f a) (nth i K_table 0)) (nth (Z.to_nat g) M 0) in
  mkState d (add32 b (rotl32 f' (nth i S_table 0))) b c.

Definition compress (st : state) (blk : list byte) : state :=
  let M := words_of_block blk in
  let '(mkState a b c d) := fold_left (round_step M) (seq 0 64) st in
  mkState (add32 (sA st) a) (add32 (sB st) b) (add32 (sC st) c) (add32 (sD st) d).

Definition digest_of_state (st : state) : list byte :=
  bytes_of_word (sA st) ++ bytes_of_word (sB st)
    ++ bytes_of_word (sC st) ++ bytes_of_word (sD st).

(** [hashlib.md5(content).digest()] *)
Definition digest (content : list byte) : list byte :=
  let padded := pad content in
  digest_of_state
    (fold_left compress (chunks (S (List.length padded)) 64 padded) init).

Definition hex_lower_digit (n : Z) : ascii :=
  nth (Z.to_nat n)
      (list_ascii_of_string "0123456789abcdef") "0"%char.

(** [hashlib.md5(content).hexdigest()] *)
Definition hexdigest (content : list byte) : string :=
  string_of_list_ascii
    (flat_map (fun b => [ hex_lower_digit (Z.shiftr (Z_of_byte b) 4);
                          hex_lower_digit (Z.land (Z_of_byte b) 15) ])
              (digest content)).

End MD5.

(** ** src/colours.py: the pattern generator *)

(** Python's [len], as an [int]. *)
Definition len {A : Type} (l : list A) : Z := Z.of_nat (List.length l).

(** The inner loop of the [repeat] and [mirror] branches:
    [for c in cycle: if len(seq) >= length: break; seq.append(c)]. *)
Fixpoint for_append (cycle : list string) (seq : list string) (length : Z)
  : list string :=
  match cycle with
  | [] => seq
  | c :: rest =>
      if len seq >=? length then seq
      else for_append rest (seq ++ [c]) length
  end.

(** The outer loop, [while len(seq) < length: for c in cycle: ...]. *)
Fixpoint while_cycle (fuel : nat) (cycle : list string) (seq : list string)
  (length : Z) : option (list string) :=
  if len seq <? length then
    match fuel with
    | O => None
    | S fuel' => while_cycle fuel' cycle (for_append cycle seq length) length
    end
  else Some seq.

(** The loop of the [rotate] branch:
    [while len(seq) < length: seq.append(base[i % 4]); i += 1]. *)
Fixpoint while_rotate (fuel : nat) (base : list string) (seq : list string)
  (i : Z) (length : Z) : option (result (list string)) :=
  if len seq <? length then
    match fuel with
    | O => None
    | S fuel' =>
        match base !! Z.to_nat (i mod 4) with
        | Some c => while_rotate fuel' base (seq ++ [c]) (i + 1) length
        | None => Some (Raise IndexError)
        end
    end
  else Some (Return seq).

Definition generate_pattern_fuel (fuel : nat) (colors : list string)
  (length : Z) (mode : string) : option (result (list string)) :=
  if bool_decide (colors = []) || (len colors <? 4) then
    Some (Raise (ValueError "colors must be a list of 4 hex strings"))
  else
    let base := take 4 colors in
    if String.eqb mode "repeat" then
      Return <$> while_cycle fuel base [] length
    else if String.eqb mode "mirror" then
      let mirror := base ++ rev base in
      Return <$> while_cycle fuel mirror [] length
    else if String.eqb mode "rotate" then
      while_rotate fuel base [] 0 length
    else
      Some (Raise (ValueError ("unknown mode: " +:+ mode))).

(** [generate_pattern(colors, length, mode)]. Every turn of each loop appends
    at least one element, so [length] turns are enough
    (see [generate_pattern_fuel_enough]). *)
Definition generate_pattern (colors : list string) (length : Z) (mode : string)
  : option (result (list string)) :=
  generate_pattern_fuel (Z.to_nat length) colors length mode.

(** The three modes the generator knows. *)
Definition recognized (mode : string) : Prop :=
  mode = "repeat"%string \/ mode = "mirror"%string \/ mode = "rotate"%string.

(** ** src/colours.py: the digest colours *)

Definition hex_upper_digit (n : Z) : ascii :=
  nth (Z.to_nat n) (list_ascii_of_string "0123456789ABCDEF") "0"%char.

(** [f"{r:02X}"] for [r] an element of a [bytes] value. *)
Definition format_02X (r : byte) : string :=
  String (hex_upper_digit (Z.shiftr (MD5.Z_of_byte r) 4))
    (String (hex_upper_digit (Z.land (MD5.Z_of_byte r) 15)) EmptyString).

(** [_digest_to_rgb(d)]: [d[0]], [d[1]], [d[2]] raise on a short [d]. *)
Definition _digest_to_rgb (d : list byte) : result string :=
  match d with
  | r :: g :: b :: _ =>
      Return ("#" +:+ format_02X r +:+ format_02X g +:+ format_02X b)
  | _ => Raise IndexError
  end.

(** One turn of [for i in range(4)]: the group at [(i * 3) % len(h)], topped
    up from the start of [h] when it runs short, as a colour. *)
Definition digest_group (h : list byte) (i : Z) : result string :=
  if len h =? 0 then Raise ZeroDivisionError
  else
    let start := Z.to_nat ((i * 3) mod len h) in
    let group := take 3 (drop start h) in
    let group := if len group <? 3 then take 3 (group ++ h) else group in
    _digest_to_rgb group.

(** The loop itself, appending to [colours]. *)
Fixpoint digest_loop (h : list byte) (range : list Z) (colours : list string)
  : result (list string) :=
  match range with
  | [] => Return colours
  | i :: range' =>
      let* c := digest_group h i in
      digest_loop h range' (colours ++ [c])
  end.

(** [extract_top4_from_digest(content)] *)
Definition extract_top4_from_digest (content : list byte) : result (list string) :=
  let h := MD5.digest content in
  digest_loop h [0; 1; 2; 3] [].

(** ** The world outside: network and file system *)

(** What [requests.get(url, stream=True, timeout=15)] meets. A body is the
    chunks [iter_content] yields; when [complete] is false the stream breaks
    off after them. *)
Inductive Response : Type :=
| Unreachable
| BadStatus
| Body (chunks : list (list byte)) (complete : bool).

Record World : Type := mkWorld {
  files : gmap string (list byte);
  dirs : gset string;
  network : string -> Response;
  repo_root : string
}.

Definition with_files (w : World) (fs : gmap string (list byte)) : World :=
  mkWorld fs (dirs w) (network w) (repo_root w).

(** [path.exists()] for a file path. *)
Definition path_exists (p : string) (w : World) : bool :=
  bool_decide (is_Some (files w !! p)).

(** [path.unlink()] *)
Definition unlink (p : string) (w : World) : result unit * World :=
  match files w !! p with
  | Some _ => (Return tt, with_files w (delete p (files w)))
  | None => (Raise OSError, w)
  end.

(** [path.read_bytes()] *)
Definition read_bytes (p : string) (w : World) : result (list byte) :=
  match files w !! p with
  | Some content => Return content
  | None => Raise OSError
  end.

(** ** pathlib: [Path(url).suffix] *)

Module Pathlib.

(** Split at every [sep]. *)
Fixpoint split (sep : ascii) (s : list ascii) : list (list ascii) :=
  match s with
  | [] => [[]]
  | c :: t =>
      match split sep t with
      | [] => [[c]]
      | part :: parts =>
          if Ascii.eqb c sep then [] :: part :: parts
          else (c :: part) :: parts
      end
  end.

(** The final component: empty components and [.] are dropped. *)
Definition name (s : string) : list ascii :=
  let parts :=
    List.filter (fun part => negb (bool_decide (part = []) || bool_decide (part = ["."%char])))
      (split "/"%char (list_ascii_of_string s)) in
  List.last parts [].

(** [name.rfind(".")], as the text before the last dot and the text from
    it on. *)
Fixpoint rsplit_dot (l : list ascii) : option (list ascii * list ascii) :=
  match l with
  | [] => None
  | c :: t =>
      match rsplit_dot t with
      | Some (pre, suf) => Some (c :: pre, suf)
      | None => if Ascii.eqb c "."%char then Some ([], c :: t) else None
      end
  end.

(** [i = name.rfind("."); name[i:] if 0 < i < len(name) - 1 else ""].
    The two tests say that something precedes the last dot and something
    follows it; counted in bytes they hold exactly when they hold counted in
    characters, the dot being one byte. *)
Definition suffix (s : string) : string :=
  let n := name s in
  match rsplit_dot n with
  | Some (pre, suf) =>
      if (0 <? len pre) && (len pre <? len n - 1)
      then string_of_list_ascii suf else ""
  | None => ""
  end.

End Pathlib.

(** ** Text: encoding and length of a [str] *)

(** A lone surrogate is the byte 237 followed by a byte from 160 to 191; in
    generalised UTF-8 the byte 237 only ever starts a code point. *)
Fixpoint has_surrogate (l : list ascii) : bool :=
  match l with
  | [] => false
  | a :: t =>
      match t with
      | [] => false
      | b :: _ =>
          (nat_of_ascii a =? 237)%nat
          && (160 <=? nat_of_ascii b)%nat && (nat_of_ascii b <=? 191)%nat
          || has_surrogate t
      end
  end.

(** [s.encode("utf-8")] *)
Definition encode_utf8 (s : string) : result (list byte) :=
  if has_surrogate (list_ascii_of_string s) then Raise UnicodeEncodeError
  else Return (list_byte_of_string s).

(** [len(s)]: the bytes from 128 to 191 continue a code point, every other
    byte starts one. *)
Definition len_str (s : string) : Z :=
  Z.of_nat
    (List.length
       (List.filter
          (fun c => negb ((128 <=? nat_of_ascii c)%nat && (nat_of_ascii c <=? 191)%nat))
          (list_ascii_of_string s))).

(** ** src/colours.py: download, image colours, [extract_top4] *)

(** Python's truth value of a [str]. *)
Definition truthy (s : string) : bool := negb (String.eqb s "").

(** [_ensure_cache_dir(cache_dir)]: the directory is the argument when it is
    given and not empty, otherwise [<repo>/cache/images]; [mkdir] with
    [exist_ok] refuses only when a file has the name. *)
Definition _ensure_cache_dir (cache_dir : option string) (w : World)
  : result string * World :=
  let p :=
    match cache_dir with
    | Some d => if truthy d then d else repo_root w +:+ "/cache/images"
    | None => repo_root w +:+ "/cache/images"
    end in
  if path_exists p w then (Raise OSError, w)
  else (Return p, mkWorld (files w) ({[p]} ∪ dirs w) (network w) (repo_root w)).

(** [fh.write(chunk)] on the file opened at [out]. *)
Definition write_chunk (out : string) (w : World) (chunk : list byte) : World :=
  if bool_decide (chunk = []) then w
  else with_files w (<[out := default [] (files w !! out) ++ chunk]> (files w)).

(** The file name [_download_image] writes to, for a URL that
    [url.encode("utf-8")] accepts: the MD5 of its bytes in hexadecimal, and
    the suffix of the URL unless it is empty or longer than 6 characters. *)
Definition download_target (url : string) (cache_dir : string) : string :=
  let h := MD5.hexdigest (list_byte_of_string url) in
  let ext := Pathlib.suffix url in
  let ext :=
    if negb (truthy ext) || (6 <? len_str ext) then ".jpg" else ext in
  cache_dir +:+ "/" +:+ h +:+ ext.

(** [_download_image(url, cache_dir)] *)
Definition _download_image (url : string) (cache_dir : string) (w : World)
  : result string * World :=
  match encode_utf8 url with
  | Raise e => (Raise e, w)                         (* url.encode("utf-8")      *)
  | Return _ =>
      let out := download_target url cache_dir in
      match network w url with
      | Unreachable => (Raise RequestException, w)  (* requests.get raises      *)
      | BadStatus => (Raise HTTPError, w)           (* resp.raise_for_status()  *)
      | Body chunks complete =>
          (* open(out, "wb") refuses a directory, creates or truncates a file *)
          if bool_decide (out ∈ dirs w) then (Raise OSError, w)
          else
            let w1 := with_files w (<[out := []]> (files w)) in
            let w2 := fold_left (write_chunk out) chunks w1 in
            if complete then (Return out, w2) else (Raise StreamError, w2)
      end
  end.

(** What Pillow hands back for lines 53 to 69 of the source (open, composite
    on white, thumbnail, adaptive quantisation to 8 colours):
    [pal.getpalette()] and [pal.getcolors(...)], pairs of a count and a
    palette index. *)
Record Quantized : Type := mkQuantized {
  q_palette : list byte;
  q_counts : list (Z * Z)
}.

(** [counted.sort(reverse=True, key=lambda x: x[0])]: descending by count,
    equal counts in their original order. *)
Fixpoint insert_desc {A : Type} (x : Z * A) (l : list (Z * A)) : list (Z * A) :=
  match l with
  | [] => [x]
  | y :: t => if fst y <=? fst x then x :: y :: t else y :: insert_desc x t
  end.

Definition sort_desc {A : Type} (l : list (Z * A)) : list (Z * A) :=
  fold_right insert_desc [] l.

(** [hexc in colours] *)
Definition mem (c : string) (colours : list string) : bool :=
  existsb (String.eqb c) colours.

(** Lines 73 to 78: palette index to RGB. *)
Fixpoint count_colours (palette : list byte) (color_counts : list (Z * Z))
  : result (list (Z * (byte * byte * byte))) :=
  match color_counts with
  | [] => Return []
  | (count, idx) :: rest =>
      let i := Z.to_nat (idx * 3) in
      match palette !! i, palette !! (i + 1)%nat, palette !! (i + 2)%nat with
      | Some r, Some g, Some b =>
          let* tl := count_colours palette rest in
          Return ((count, (r, g, b)) :: tl)
      | _, _, _ => Raise IndexError
      end
  end.

(** Lines 84 to 92: the frequent colours that are not near white. *)
Fixpoint pick_colours (counted : list (Z * (byte * byte * byte)))
  (colours : list string) : list string :=
  match counted with
  | [] => colours
  | (_, (r, g, b)) :: rest =>
      if (245 <=? MD5.Z_of_byte r) && (245 <=? MD5.Z_of_byte g)
         && (245 <=? MD5.Z_of_byte b)
      then pick_colours rest colours
      else
        let hexc := "#" +:+ format_02X r +:+ format_02X g +:+ format_02X b in
        let colours := if mem hexc colours then colours else colours ++ [hexc] in
        if len colours >=? 4 then colours else pick_colours rest colours
  end.

(** Lines 97 to 101: top up from the fallback colours. *)
Fixpoint top_up (fallback : list string) (colours : list string) : list string :=
  match fallback with
  | [] => colours
  | c :: rest =>
      let colours := if mem c colours then colours else colours ++ [c] in
      if len colours >=? 4 then colours else top_up rest colours
  end.

Section Imaging.

(** Pillow's part; [None] when [Image.open] rejects the bytes. *)
Variable quantize : list byte -> option Quantized.

(** [_extract_top4_from_file(path)] *)
Definition _extract_top4_from_file (path : string) (w : World)
  : result (list string) :=
  let* content := read_bytes path w in
  match quantize content with
  | None => Raise UnidentifiedImageError
  | Some q =>
      let* counted := count_colours (q_palette q) (q_counts q) in
      let counted := sort_desc counted in
      let colours := pick_colours counted [] in
      let* colours :=
        if len colours <? 4 then
          let* fallback := extract_top4_from_digest content in
          Return (top_up fallback colours)
        else Return colours in
      Return (take 4 colours)
  end.

(** [extract_top4(source_identifier, cache_dir)] *)
Definition extract_top4 (source_identifier : string)
  (cache_dir : option string) (w : World) : result (list string) * World :=
  let source_identifier :=
    if negb (truthy source_identifier) then ""%string else source_identifier in
  let is_url :=
    String.prefix "http://" source_identifier
    || String.prefix "https://" source_identifier in
  if negb is_url then
    match encode_utf8 source_identifier with
    | Raise e => (Raise e, w)
    | Return content =>
        let h := MD5.digest content in
        (digest_loop h [0; 1; 2; 3] [], w)
    end
  else
    match _ensure_cache_dir cache_dir w with
    | (Raise e, w0) => (Raise e, w0)
    | (Return cache_path, w0) =>
        (* try: *)
        let '(r, downloaded, w1) :=
          match _download_image source_identifier cache_path w0 with
          | (Return p, w1) => (_extract_top4_from_file p w1, Some p, w1)
          | (Raise e, w1) => (Raise e, None, w1)
          end in
        (* finally: the inner try swallows what unlink raises *)
        let w2 :=
          match downloaded with
          | Some p => if path_exists p w1 then snd (unlink p w1) else w1
          | None => w1
          end in
        (r, w2)
    end.

(** ** scripts/poll_playback.py: the rotation state and one poll *)

Record _RotationState : Type := mkRotationState {
  prev_art : option string;
  rotation : Z;
  base : list string
}.

(** [_RotationState()] *)
Definition fresh : _RotationState := mkRotationState None 0 [].

(** What one turn of the loop hands to the printer and to the snapshot. *)
Record Emitted : Type := mkEmitted {
  e_base : list string;
  e_pattern : option (list string)
}.

(** Lines 76 to 96 of [run_loop], for the artwork [art] the poll saw
    ([None] when nothing plays). An exception leaves the loop with what it
    had assigned so far. *)
Definition poll (state : _RotationState) (art : option string) (w : World)
  : _RotationState * Emitted * World :=
  match art with
  | Some a =>
      if truthy a then
        let '(updated, w1) :=
          if bool_decide (Some a = prev_art state) then
            (Return (mkRotationState (prev_art state)
                       ((rotation state + 1) mod 4) (base state)), w)
          else
            match extract_top4 a None w with
            | (Return colours, w1) => (Return (mkRotationState (Some a) 0 colours), w1)
            | (Raise e, w1) => (Raise e, w1)
            end in
        match updated with
        | Raise _ => (state, mkEmitted [] None, w1)
        | Return state1 =>
            let r := Z.to_nat (rotation state1) in
            let rotated := drop r (base state1) ++ take r (base state1) in
            match generate_pattern rotated 16 "repeat" with
            | Some (Return pattern) => (state1, mkEmitted rotated (Some pattern), w1)
            | _ => (state1, mkEmitted rotated None, w1)
            end
        end
      else (state, mkEmitted [] None, w)
  | None => (state, mkEmitted [] None, w)
  end.


End Imaging.

(** ** Vocabulary of the specification *)

(** The cycle a mode reads from, for a base of four colours. *)
Definition cycle_of (mode : string) (base : list string) : list string :=
  if String.eqb mode "mirror" then base ++ rev base else base.

(** The pattern [#[0-9A-F]{6}] of the specification. *)
Definition is_hex_upper (c : ascii) : bool :=
  let n := nat_of_ascii c in
  ((48 <=? n) && (n <=? 57) || (65 <=? n) && (n <=? 70))%nat.

Definition is_ColourHex (s : string) : bool :=
  match list_ascii_of_string s with
  | "#"%char :: digits =>
      (List.length digits =? 6)%nat && forallb is_hex_upper digits
  | _ => false
  end.

(** ** Sample surroundings *)

(** No image library: every file is rejected. *)
Definition no_pillow : list byte -> option Quantized := fun _ => None.

(** Empty file system, unreachable network. *)
Definition offline : World := mkWorld ∅ ∅ (fun _ => Unreachable) "/repo".

(** A [str] of one code point, the lone surrogate U+D800. *)
Definition lone_surrogate : string :=
  String (ascii_of_nat 237)
    (String (ascii_of_nat 160) (String (ascii_of_nat 128) EmptyString)).

(** The colours of the identifier [album-42], whose MD5 is
    [8f18d9737a35408664f52ef8d88683e8]. *)
Definition album_42 : list string :=
  ["#8F18D9"; "#737A35"; "#408664"; "#F52EF8"]%string.

(** ** scripts/get_playback.py: [download_url] *)

(** [download_url(url, out_path)]. The request is not streamed:
    [requests.get] has read the whole body, or raised, before the file is
    opened. Opening a directory for writing is refused. *)
Definition download_url (url : string) (out_path : string) (w : World)
  : result unit * World :=
  match network w url with
  | Unreachable => (Raise RequestException, w)
  | BadStatus => (Raise HTTPError, w)
  | Body chunks complete =>
      if negb complete then (Raise StreamError, w)
      else if bool_decide (out_path ∈ dirs w) then (Raise OSError, w)
      else (Return tt, with_files w (<[out_path := concat chunks]> (files w)))
  end.

(** ** src/spotify_client.py and scripts/poll_playback.py: the artwork of a
       playback object *)

Module Json.

(** What [json] decoding gives a playback object as. *)
#[warnings="-register-all"]
Inductive json : Type :=
| JNone
| JBool (b : bool)
| JInt (n : Z)
| JFloat (f : float)
| JStr (s : string)
| JList (l : list json)
| JDict (d : gmap string json).

Inductive lookup_exn : Type :=
| AttributeError
| KeyError
| TypeError
| EmptyIndexError.

(** Python's truth value. *)
Definition jtruthy (v : json) : bool :=
  match v with
  | JNone => false
  | JBool b => b
  | JInt n => negb (n =? 0)
  | JFloat f => negb (PrimFloat.eqb f 0%float)
  | JStr s => truthy s
  | JList l => match l with [] => false | _ => true end
  | JDict d => negb (bool_decide (dom d = ∅))
  end.

(** [a or b] *)
Definition jor (a b : json) : json := if jtruthy a then a else b.

(** [v.get(key)]: only a dict has the method. *)
Definition jget (v : json) (key : string) : lookup_exn + json :=
  match v with
  | JDict d => inr (default JNone (d !! key))
  | _ => inl AttributeError
  end.

(** [v[key]] for a string key. *)
Definition jitem (v : json) (key : string) : lookup_exn + json :=
  match v with
  | JDict d =>
      match d !! key with
      | Some x => inr x
      | None => inl KeyError
      end
  | _ => inl TypeError
  end.

(** The bytes of the first code point of a UTF-8 text. *)
Definition first_char (s : string) : string :=
  match s with
  | EmptyString => EmptyString
  | String c _ =>
      let n := nat_of_ascii c in
      let k := if (n <? 192)%nat then 1%nat
               else if (n <? 224)%nat then 2%nat
               else if (n <? 240)%nat then 3%nat else 4%nat in
      string_of_list_ascii (take k (list_ascii_of_string s))
  end.

(** [v[0]] *)
Definition jfirst (v : json) : lookup_exn + json :=
  match v with
  | JList (x :: _) => inr x
  | JList [] => inl EmptyIndexError
  | JStr s => if truthy s then inr (JStr (first_char s)) else inl EmptyIndexError
  | JDict _ => inl KeyError
  | _ => inl TypeError
  end.

Definition jbind (r : lookup_exn + json) (k : json -> lookup_exn + json)
  : lookup_exn + json :=
  match r with
  | inr v => k v
  | inl e => inl e
  end.

(** [SpotifyClient.get_artwork_url(playback_obj)] *)
Definition get_artwork_url (playback_obj : json) : lookup_exn + json :=
  if negb (jtruthy playback_obj) then inr JNone
  else
    jbind (jget playback_obj "item") (fun item =>
    if negb (jtruthy item) then inr JNone
    else
      jbind (jget item "album") (fun album =>
      let album := jor album (JDict ∅) in
      jbind (jget album "images") (fun images =>
      let images := jor images (JList []) in
      if negb (jtruthy images) then inr JNone
      else jbind (jfirst images) (fun first => jget first "url")))).

(** Lines 65 to 72 of [run_loop]: the same walk written inline, inside a
    [try] whose handler sets [art = None]. *)
Definition run_loop_art (playback : json) : json :=
  let attempt : lookup_exn + json :=
    (* playback and playback.get("item") and playback["item"].get("album") *)
    if negb (jtruthy playback) then inr JNone
    else
      jbind (jget playback "item") (fun item =>
      if negb (jtruthy item) then inr JNone
      else
        jbind (jitem playback "item") (fun item1 =>
        jbind (jget item1 "album") (fun album =>
        if negb (jtruthy album) then inr JNone
        else
          jbind (jitem playback "item") (fun item2 =>
          jbind (jitem item2 "album") (fun album2 =>
          jbind (jget album2 "images") (fun images =>
          let images := jor images (JList []) in
          if jtruthy images then
            jbind (jfirst images) (fun first => jget first "url")
          else inr JNone)))))) in
  match attempt with
  | inr art => art
  | inl _ => JNone
  end.

End Json.

(** ** src/auth.py: the [.env] loader and the credentials *)

Module Auth.

(** ["=" in line] *)
Definition contains_eq (line : string) : bool :=
  existsb (Ascii.eqb "="%char) (list_ascii_of_string line).

(** [line.split("=", 1)] for a line that holds an [=]. *)
Fixpoint split_eq (l : list ascii) : list ascii * list ascii :=
  match l with
  | [] => ([], [])
  | c :: t =>
      if Ascii.eqb c "="%char then ([], t)
      else let '(k, v) := split_eq t in (c :: k, v)
  end.

Definition ends_with (c : ascii) (l : list ascii) : bool :=
  match l with
  | [] => false
  | _ => Ascii.eqb (List.last l c) c
  end.

Definition starts_with (c : ascii) (l : list ascii) : bool :=
  match l with
  | [] => false
  | d :: _ => Ascii.eqb d c
  end.

(** The double quote character. *)
Definition dquote : ascii := ascii_of_nat 34.

(** Lines 43 and 44: a value between two double quotes or two single quotes
    loses them: [val[1:-1]]. *)
Definition unquote (val : string) : string :=
  let l := list_ascii_of_string val in
  if starts_with dquote l && ends_with dquote l
     || starts_with "'"%char l && ends_with "'"%char l
  then string_of_list_ascii (take (List.length l - 2) (drop 1 l))
  else val.

(** [os.environ[key] = val] refuses a NUL byte in the name or the value. *)
Definition has_nul (s : string) : bool :=
  existsb (Ascii.eqb zero) (list_ascii_of_string s).

Section Dotenv.

(** [str.strip()] *)
Variable strip : string -> string.

(** The loop of [_load_dotenv] over the lines the file yields. What
    [os.environ[key] = val] raises ends the loop through the
    [except Exception: return]. *)
Fixpoint load_lines (lines : list string) (environ : gmap string string)
  : gmap string string :=
  match lines with
  | [] => environ
  | line :: rest =>
      let line := strip line in
      if negb (truthy line) || String.prefix "#" line then load_lines rest environ
      else if negb (contains_eq line) then load_lines rest environ
      else
        let '(key, val) := split_eq (list_ascii_of_string line) in
        let key := strip (string_of_list_ascii key) in
        let val := unquote (strip (string_of_list_ascii val)) in
        if truthy key && negb (bool_decide (is_Some (environ !! key))) then
          if has_nul key || has_nul val then environ
          else load_lines rest (<[key := val]> environ)
        else load_lines rest environ
  end.

(** [_load_dotenv(path)]; [file] is [None] when the path does not exist or
    cannot be opened, otherwise the lines read from it. *)
Definition _load_dotenv (file : option (list string))
  (environ : gmap string string) : gmap string string :=
  match file with
  | None => environ
  | Some lines => load_lines lines environ
  end.

End Dotenv.

(** The arguments [SpotifyOAuth] is built from. *)
Record SpotifyOAuth : Type := mkSpotifyOAuth {
  oauth_client_id : option string;
  oauth_client_secret : option string;
  oauth_redirect_uri : option string;
  oauth_scope : string;
  oauth_cache_path : string
}.

Inductive auth_result : Type :=
| Manager (m : SpotifyOAuth)
| RuntimeError (msg : string).

(** Python's truth value of an [Optional[str]], and [a or b]. *)
Definition truthy_opt (a : option string) : bool :=
  match a with
  | Some s => truthy s
  | None => false
  end.

Definition or_else (a b : option string) : option string :=
  if truthy_opt a then a else b.

(** [get_oauth_manager(client_id, client_secret, redirect_uri, scope, cache_path)] *)
Definition get_oauth_manager (client_id client_secret redirect_uri : option string)
  (scope cache_path : string) (environ : gmap string string) : auth_result :=
  let client_id := or_else client_id (environ !! "SPOTIFY_CLIENT_ID") in
  let client_secret := or_else client_secret (environ !! "SPOTIFY_CLIENT_SECRET") in
  let redirect_uri :=
    or_else (or_else redirect_uri (environ !! "SPOTIFY_REDIRECT_URI"))
            (Some "http://localhost:8080") in
  if negb (truthy_opt client_id) || negb (truthy_opt client_secret) then
    RuntimeError
      "Spotify client_id and client_secret must be provided via args or environment variables"
  else Manager (mkSpotifyOAuth client_id client_secret redirect_uri scope cache_path).

End Auth.

(** ** More vocabulary *)


(** A colour whose three channels are all at least 245. *)
Definition near_white (r g b : byte) : bool :=
  (245 <=? MD5.Z_of_byte r) && (245 <=? MD5.Z_of_byte g)
  && (245 <=? MD5.Z_of_byte b).

(** [f"#{r:02X}{g:02X}{b:02X}"] *)
Definition rgb_hex (r g b : byte) : string :=
  "#" +:+ format_02X r +:+ format_02X g +:+ format_02X b.

(** [str.upper()] on ASCII letters. *)
Definition upper (c : ascii) : ascii :=
  let n := nat_of_ascii c in
  if ((97 <=? n) && (n <=? 122))%nat then ascii_of_nat (n - 32) else c.

(** [str.strip()] for the ASCII white space. *)
Definition is_space (c : ascii) : bool :=
  let n := nat_of_ascii c in
  ((9 <=? n) && (n <=? 13) || (28 <=? n) && (n <=? 32))%nat.

Fixpoint lstrip (l : list ascii) : list ascii :=
  match l with
  | [] => []
  | c :: t => if is_space c then lstrip t else l
  end.

Definition strip_ascii (s : string) : string :=
  string_of_list_ascii
    (rev (lstrip (rev (lstrip (list_ascii_of_string s))))).

Definition upper_string (s : string) : string :=
  string_of_list_ascii (map upper (list_ascii_of_string s)).

(** An image library that sees, in every file, 50 white pixels, 30 and 5
    pixels of one blue registered twice, and 15 black pixels. *)
Definition sample_pillow : list byte -> option Quantized :=
  fun _ =>
    Some (mkQuantized
            [xff; xff; xff; x10; x20; x30; x10; x20; x30; x00; x00; x00]
            [(50, 0); (30, 1); (5, 2); (15, 3)]).

(** A file system with one file, a network that is down. *)
Definition sample_disk : World :=
  mkWorld {[ "/img.png"%string := [x01] ]} ∅ (fun _ => Unreachable) "/repo".

(** An empty file system, a network that serves the one byte [01] whole at
    every address. *)
Definition online : World :=
  mkWorld ∅ ∅ (fun _ => Body [[x01]] true) "/repo".

(** The world a failed poll leaves behind in [offline], once the server
    answers again. *)
Definition back_online : World :=
  mkWorld ∅ {["/repo/cache/images"%string]} (fun _ => Body [[x01]] true) "/repo".

(** A URL whose suffix has four characters and seven bytes: a dot and three
    times U+00E9. *)
Definition e_acute : string :=
  String (ascii_of_nat 195) (String (ascii_of_nat 169) EmptyString).

Definition accented_url : string :=
  "http://x/a." +:+ e_acute +:+ e_acute +:+ e_acute.

(** What every list of colours under construction is: without repetition
    and made of [#RRGGBB] strings. *)
Definition palette_ok (colours : list string) : Prop :=
  NoDup colours /\ Forall (fun c => is_ColourHex c = true) colours.

(** The same byte sent as an empty chunk and a chunk of one byte, in another
    repository. *)
Definition online_chunked : World :=
  mkWorld ∅ ∅ (fun _ => Body [[]; [x01]] true) "/other".


(** * Properties *)

(** ** The models of the libraries, on known values *)

(** The reference digests of RFC 1321 and inputs around the padding
    boundary. *)
Example md5_empty :
  MD5.hexdigest [] = "d41d8cd98f00b204e9800998ecf8427e"%string.
Proof. vm_compute. reflexivity. Qed.

Example md5_abc :
  MD5.hexdigest (list_byte_of_string "abc") = "900150983cd24fb0d6963f7d28e17f72"%string.
Proof. vm_compute. reflexivity. Qed.

Example md5_55 :
  MD5.hexdigest (repeat "a"%byte 55) = "ef1772b6dff9a122358552954ad0df65"%string.
Proof. vm_compute. reflexivity. Qed.

Example md5_56 :
  MD5.hexdigest (repeat "a"%byte 56) = "3b0c8ac703f828b04c6c197006d17218"%string.
Proof. vm_compute. reflexivity. Qed.

Example md5_64 :
  MD5.hexdigest (repeat "a"%byte 64) = "014842d480b571495a4a0363793f7367"%string.
Proof. vm_compute. reflexivity. Qed.

Example suffix_jpg : Pathlib.suffix "https://example.com/artwork-large.jpg" = ".jpg"%string.
Proof. reflexivity. Qed.

Example suffix_none : Pathlib.suffix "https://i.scdn.co/image/ab67616d0000b273" = ""%string.
Proof. reflexivity. Qed.

Example suffix_hidden : Pathlib.suffix "https://example.com/.hidden" = ""%string.
Proof. reflexivity. Qed.

Example download_target_example :
  download_target "https://i.scdn.co/image/ab67616d0000b273" "/repo/cache/images"
  = "/repo/cache/images/c77ece79ace4d8f62b20aaaaccc72fa9.jpg"%string.
Proof. vm_compute. reflexivity. Qed.

Example sort_desc_stable :
  sort_desc [(3, "a"); (7, "b"); (3, "c"); (9, "d"); (7, "e")]%string
  = [(9, "d"); (7, "b"); (7, "e"); (3, "a"); (3, "c")]%string.
Proof. reflexivity. Qed.

(** The rotated base the tracker feeds the generator: phase 2 of
    [A, B, C, D] is [C, D, A, B]. *)
Example rotated_base (A B C D : string) :
  drop 2 [A; B; C; D] ++ take 2 [A; B; C; D] = [C; D; A; B].
Proof. reflexivity. Qed.

(** ** The loops of the pattern generator *)

Lemma len_app {A : Type} (l1 l2 : list A) : len (l1 ++ l2) = len l1 + len l2.
Proof. unfold len. rewrite length_app. lia. Qed.

Lemma len_nonneg {A : Type} (l : list A) : 0 <= len l.
Proof. unfold len. lia. Qed.

(** The inner loop appends the longest prefix of the cycle that fits. *)
Lemma for_append_take (cycle seq : list string) (L : Z) :
  for_append cycle seq L = seq ++ take (Z.to_nat (L - len seq)) cycle.
Proof.
  revert seq. induction cycle as [|c rest IH]; intros seq; simpl.
  - by rewrite take_nil, app_nil_r.
  - destruct (Z.geb_spec (len seq) L) as [Hge|Hlt].
    + replace (Z.to_nat (L - len seq)) with 0%nat by lia.
      by rewrite app_nil_r.
    + rewrite IH, len_app. unfold len at 2. simpl.
      replace (Z.to_nat (L - len seq)) with (S (Z.to_nat (L - (len seq + 1)))) by lia.
      simpl. by rewrite <- app_assoc.
Qed.

(** With a non-empty cycle the outer loop ends within [L - len seq] turns and
    has appended exactly the missing elements, read cyclically. *)
Lemma while_cycle_spec (fuel : nat) (cycle seq : list string) (L : Z) :
  cycle <> [] ->
  (Z.to_nat (L - len seq) <= fuel)%nat ->
  exists ext,
    while_cycle fuel cycle seq L = Some (seq ++ ext)
    /\ List.length ext = Z.to_nat (L - len seq)
    /\ forall j, (j < List.length ext)%nat ->
         ext !! j = cycle !! (j mod List.length cycle)%nat.
Proof.
  intros Hne. revert seq.
  induction fuel as [|fuel IH]; intros seq Hfuel.
  - exists []. simpl. destruct (Z.ltb_spec (len seq) L); [lia|].
    rewrite app_nil_r. split; [done|]. split; [simpl; lia|]. simpl. lia.
  - simpl. destruct (Z.ltb_spec (len seq) L) as [Hlt|Hge].
    2:{ exists []. rewrite app_nil_r. split; [done|].
        split; [simpl; lia|]. simpl. lia. }
    rewrite for_append_take.
    set (k := Z.to_nat (L - len seq)) in *.
    set (c := List.length cycle).
    assert (Hc : (0 < c)%nat) by (subst c; destruct cycle; simpl; [done|lia]).
    set (pre := take k cycle).
    assert (Hpre : List.length pre = Nat.min k c) by (subst pre c; apply length_take).
    destruct (IH (seq ++ pre)) as (ext & Hrun & Hlen & Hnth).
    { rewrite len_app. unfold len at 2. rewrite Hpre. lia. }
    exists (pre ++ ext). rewrite app_assoc. split; [done|].
    rewrite len_app in Hlen. unfold len at 2 in Hlen. rewrite Hpre in Hlen.
    split; [rewrite length_app; lia|].
    intros j Hj. rewrite length_app in Hj.
    destruct (Nat.lt_ge_cases j (List.length pre)) as [Hjl|Hjr].
    + rewrite lookup_app_l by done.
      subst pre. rewrite lookup_take_lt by lia.
      rewrite Nat.mod_small; [done|]. fold c. lia.
    + rewrite lookup_app_r by done.
      assert (Hfull : List.length pre = c) by lia.
      rewrite Hnth by lia. f_equal. rewrite Hfull. fold c.
      replace j with ((j - c) + 1 * c)%nat at 2 by lia.
      by rewrite Nat.Div0.mod_add.
Qed.

(** The [rotate] loop on a base of four colours: one element per turn,
    [base[i % 4]] with [i] counting up. *)
Lemma while_rotate_spec (fuel : nat) (base seq : list string) (i L : Z) :
  List.length base = 4%nat ->
  0 <= i ->
  (Z.to_nat (L - len seq) <= fuel)%nat ->
  exists ext,
    while_rotate fuel base seq i L = Some (Return (seq ++ ext))
    /\ List.length ext = Z.to_nat (L - len seq)
    /\ forall j, (j < List.length ext)%nat ->
         ext !! j = base !! ((Z.to_nat i + j) mod 4)%nat.
Proof.
  intros Hb. revert seq i.
  induction fuel as [|fuel IH]; intros seq i Hi Hfuel; simpl.
  - exists []. destruct (Z.ltb_spec (len seq) L); [lia|].
    rewrite app_nil_r. split; [done|]. split; [simpl; lia|]. simpl. lia.
  - destruct (Z.ltb_spec (len seq) L) as [Hlt|Hge].
    2:{ exists []. rewrite app_nil_r. split; [done|].
        split; [simpl; lia|]. simpl. lia. }
    assert (Hm : 0 <= i mod 4 < 4) by (apply Z.mod_pos_bound; lia).
    destruct (lookup_lt_is_Some_2 base (Z.to_nat (i mod 4))) as [c Hc]; [lia|].
    rewrite Hc.
    destruct (IH (seq ++ [c]) (i + 1)) as (ext & Hrun & Hlen & Hnth); [lia| |].
    { rewrite len_app. unfold len at 2. simpl. lia. }
    exists (c :: ext). rewrite <- app_assoc in Hrun. split; [done|].
    rewrite len_app in Hlen. unfold len at 2 in Hlen. simpl in Hlen.
    split; [simpl; lia|].
    intros [|j] Hj.
    + rewrite Nat.add_0_r. change ((c :: ext) !! 0%nat) with (Some c).
      rewrite <- Hc. f_equal. rewrite Z2Nat.inj_mod by lia. done.
    + change ((c :: ext) !! S j) with (ext !! j).
      simpl in Hj. rewrite Hnth by lia.
      replace (Z.to_nat (i + 1) + j)%nat with (Z.to_nat i + S j)%nat by lia.
      done.
Qed.

(** ** The pattern generator *)

Lemma guard_passes (colors : list string) :
  (4 <= List.length colors)%nat ->
  bool_decide (colors = []) || (len colors <? 4) = false.
Proof.
  intros H. destruct colors as [|c colors]; [simpl in H; lia|].
  rewrite bool_decide_eq_false_2 by done. simpl.
  apply Z.ltb_ge. unfold len. simpl in *. lia.
Qed.

Lemma guard_fails (colors : list string) :
  (List.length colors < 4)%nat ->
  bool_decide (colors = []) || (len colors <? 4) = true.
Proof.
  intros H. apply orb_true_iff. right. apply Z.ltb_lt. unfold len. lia.
Qed.

(** With at least four colours and a known mode, enough fuel makes the call
    return: the output has [max 0 L] elements and reads the mode's cycle
    cyclically. *)
Lemma generate_pattern_fuel_cyclic (fuel : nat) (colors : list string)
  (L : Z) (mode : string) :
  (4 <= List.length colors)%nat ->
  recognized mode ->
  (Z.to_nat L <= fuel)%nat ->
  exists out,
    generate_pattern_fuel fuel colors L mode = Some (Return out)
    /\ List.length out = Z.to_nat L
    /\ forall j, (j < List.length out)%nat ->
         out !! j =
         cycle_of mode (take 4 colors)
           !! (j mod List.length (cycle_of mode (take 4 colors)))%nat.
Proof.
  intros Hlen Hmode Hfuel. unfold generate_pattern_fuel.
  rewrite guard_passes by done.
  assert (Hbase : List.length (take 4 colors) = 4%nat)
    by (rewrite length_take; lia).
  assert (Hne : take 4 colors <> [])
    by (intros E; rewrite E in Hbase; done).
  destruct Hmode as [-> | [-> | ->]]; simpl.
  - destruct (while_cycle_spec fuel (take 4 colors) [] L Hne)
      as (ext & Hrun & Hl & Hnth); [unfold len; simpl; lia|].
    exists ext. rewrite Hrun. simpl. split; [done|].
    split; [unfold len in Hl; simpl in Hl; lia|]. done.
  - assert (Hne' : take 4 colors ++ rev (take 4 colors) <> [])
      by (intros E; apply app_eq_nil in E; tauto).
    destruct (while_cycle_spec fuel _ [] L Hne')
      as (ext & Hrun & Hl & Hnth); [unfold len; simpl; lia|].
    exists ext. rewrite Hrun. simpl. split; [done|].
    split; [unfold len in Hl; simpl in Hl; lia|]. done.
  - destruct (while_rotate_spec fuel (take 4 colors) [] 0 L Hbase)
      as (ext & Hrun & Hl & Hnth); [lia|unfold len; simpl; lia|].
    exists ext. rewrite Hrun. split; [done|].
    split; [unfold len in Hl; simpl in Hl; lia|].
    intros j Hj. rewrite Hnth by done. unfold cycle_of. simpl.
    by rewrite Hbase.
Qed.

(** [generate_pattern] is total: the fuel it runs with is enough, and more
    fuel changes nothing. *)
Lemma generate_pattern_fuel_enough (fuel : nat) (colors : list string)
  (L : Z) (mode : string) :
  (Z.to_nat L <= fuel)%nat ->
  generate_pattern_fuel fuel colors L mode = generate_pattern colors L mode
  /\ is_Some (generate_pattern colors L mode).
Proof.
  intros Hfuel. unfold generate_pattern.
  destruct (Nat.lt_ge_cases (List.length colors) 4) as [Hshort|Hlong].
  { unfold generate_pattern_fuel. rewrite guard_fails by done. eauto. }
  destruct (String.eqb_spec mode "repeat") as [-> | Hr];
    [|destruct (String.eqb_spec mode "mirror") as [-> | Hm];
      [|destruct (String.eqb_spec mode "rotate") as [-> | Ho]]].
  4:{ unfold generate_pattern_fuel. rewrite guard_passes by done.
      apply String.eqb_neq in Hr, Hm, Ho. rewrite Hr, Hm, Ho. eauto. }
  all: match goal with |- context [generate_pattern_fuel _ _ _ ?m] =>
         assert (Hrec : recognized m) by (unfold recognized; tauto);
         destruct (generate_pattern_fuel_cyclic fuel colors L m Hlong Hrec Hfuel)
           as (o1 & H1 & Hl1 & Hn1);
         destruct (generate_pattern_fuel_cyclic (Z.to_nat L) colors L m Hlong Hrec
                     (Nat.le_refl _)) as (o2 & H2 & Hl2 & Hn2)
       end;
    rewrite H1, H2; split; [|eauto];
    do 2 f_equal; apply list_eq; intros j;
    destruct (Nat.lt_ge_cases j (Z.to_nat L));
    [rewrite Hn1, Hn2 by lia; done
    |rewrite !lookup_ge_None_2 by lia; done].
Qed.

Lemma generate_pattern_cyclic (colors : list string) (L : Z) (mode : string) :
  (4 <= List.length colors)%nat ->
  recognized mode ->
  exists out,
    generate_pattern colors L mode = Some (Return out)
    /\ List.length out = Z.to_nat L
    /\ forall j, (j < List.length out)%nat ->
         out !! j =
         cycle_of mode (take 4 colors)
           !! (j mod List.length (cycle_of mode (take 4 colors)))%nat.
Proof.
  intros Hlen Hmode. apply generate_pattern_fuel_cyclic; done.
Qed.

(** C1. For a palette of exactly four colours, a length [L >= 0] and a
    recognized mode, [generate_pattern] returns a list of exactly [L]
    elements. *)
Theorem generate_pattern_length (p : list string) (L : Z) (mode : string) :
  List.length p = 4%nat ->
  0 <= L ->
  recognized mode ->
  exists out, generate_pattern p L mode = Some (Return out) /\ len out = L.
Proof.
  intros Hp HL Hmode.
  destruct (generate_pattern_cyclic p L mode) as (out & Hrun & Hlen & _);
    [lia|done|].
  exists out. split; [done|]. unfold len. lia.
Qed.

Lemma generate_pattern_length_witness :
  exists out,
    generate_pattern ["#010203"; "#0A0B0C"; "#AABBCC"; "#112233"]%string 8 "mirror"
      = Some (Return out)
    /\ len out = 8.
Proof.
  apply generate_pattern_length; [reflexivity|lia|right; left; reflexivity].
Defined.

(** C4, as the specification words it, does not hold: a list of five colours
    is not refused. *)
Lemma generate_pattern_accepts_five :
  ~ (forall (colors : list string) (L : Z) (mode : string),
       List.length colors <> 4%nat ->
       exists msg, generate_pattern colors L mode = Some (Raise (ValueError msg))).
Proof.
  intros H.
  destruct (H ["#000000"; "#111111"; "#222222"; "#333333"; "#444444"]%string
              4 "repeat"%string) as [msg Hmsg]; [simpl; lia|].
  vm_compute in Hmsg. discriminate.
Qed.

(** The [rotate] loop raises no [ValueError]. *)
Lemma while_rotate_no_ValueError (fuel : nat) (base seq : list string)
  (i L : Z) (msg : string) :
  while_rotate fuel base seq i L <> Some (Raise (ValueError msg)).
Proof.
  revert seq i. induction fuel as [|fuel IH]; intros seq i; simpl.
  - destruct (len seq <? L); discriminate.
  - destruct (len seq <? L); [|discriminate].
    destruct (base !! Z.to_nat (i mod 4)); [apply IH|discriminate].
Qed.

(** C4, amended. The palette check refuses exactly the lists of fewer than
    four colours: such a list is answered with [ValueError] before any loop
    runs, whatever the length, the mode and the fuel, so it is never padded;
    a list of four colours or more is never answered with that error. *)
Theorem generate_pattern_rejects_short (colors : list string) (L : Z)
  (mode : string) :
  ((List.length colors < 4)%nat ->
   forall fuel,
     generate_pattern_fuel fuel colors L mode
     = Some (Raise (ValueError "colors must be a list of 4 hex strings")))
  /\ ((4 <= List.length colors)%nat ->
      forall fuel,
        generate_pattern_fuel fuel colors L mode
        <> Some (Raise (ValueError "colors must be a list of 4 hex strings"))).
Proof.
  split.
  - intros Hshort fuel. unfold generate_pattern_fuel.
    by rewrite guard_fails.
  - intros Hlong fuel. unfold generate_pattern_fuel.
    rewrite guard_passes by done.
    destruct (String.eqb mode "repeat");
      [destruct (while_cycle _ _ _ _); discriminate|].
    destruct (String.eqb mode "mirror");
      [destruct (while_cycle _ _ _ _); discriminate|].
    destruct (String.eqb mode "rotate");
      [apply while_rotate_no_ValueError|discriminate].
Qed.

Lemma generate_pattern_rejects_short_witness :
  (forall fuel,
     generate_pattern_fuel fuel ["#000000"]%string 4 "repeat"
     = Some (Raise (ValueError "colors must be a list of 4 hex strings")))
  /\ (forall fuel,
        generate_pattern_fuel fuel
          ["#000000"; "#111111"; "#222222"; "#333333"; "#444444"]%string 4 "repeat"
        <> Some (Raise (ValueError "colors must be a list of 4 hex strings"))).
Proof.
  split.
  - apply (generate_pattern_rejects_short ["#000000"]%string 4 "repeat").
    simpl. lia.
  - apply (generate_pattern_rejects_short
             ["#000000"; "#111111"; "#222222"; "#333333"; "#444444"]%string
             4 "repeat").
    simpl. lia.
Defined.

(** C5. In mode [mirror] the palette [A, B, C, D] is read through the cycle
    [A, B, C, D, D, C, B, A]: eight elements give the cycle itself, and for
    every [L >= 0] the element at [i] is the cycle's at [i mod 8]. *)
Theorem generate_pattern_mirror (A B C D : string) :
  generate_pattern [A; B; C; D] 8 "mirror"
    = Some (Return [A; B; C; D; D; C; B; A])
  /\ forall L, 0 <= L ->
       exists out,
         generate_pattern [A; B; C; D] L "mirror" = Some (Return out)
         /\ len out = L
         /\ forall i, 0 <= i < L ->
              out !! Z.to_nat i = [A; B; C; D; D; C; B; A] !! Z.to_nat (i mod 8).
Proof.
  split; [reflexivity|].
  intros L HL.
  destruct (generate_pattern_cyclic [A; B; C; D] L "mirror")
    as (out & Hrun & Hlen & Hnth); [simpl; lia|unfold recognized; tauto|].
  exists out. split; [done|]. split; [unfold len; lia|].
  intros i Hi. rewrite Hnth by lia.
  change (cycle_of "mirror" (take 4 [A; B; C; D])) with [A; B; C; D; D; C; B; A].
  f_equal. change (List.length [A; B; C; D; D; C; B; A]) with (Z.to_nat 8).
  rewrite Z2Nat.inj_mod by lia. done.
Qed.

Lemma generate_pattern_mirror_witness :
  exists out,
    generate_pattern ["#010203"; "#0A0B0C"; "#AABBCC"; "#112233"]%string 11 "mirror"
      = Some (Return out)
    /\ len out = 11
    /\ forall i, 0 <= i < 11 ->
         out !! Z.to_nat i
         = ["#010203"; "#0A0B0C"; "#AABBCC"; "#112233";
            "#112233"; "#AABBCC"; "#0A0B0C"; "#010203"]%string !! Z.to_nat (i mod 8).
Proof.
  apply (generate_pattern_mirror "#010203" "#0A0B0C" "#AABBCC" "#112233"). lia.
Defined.

(** C6. In mode [repeat], for a palette [p] of four colours and every
    [L >= 0], the element at [i] is [p[i mod 4]]; with eight elements both
    halves are [p]. *)
Theorem generate_pattern_repeat (p : list string) :
  List.length p = 4%nat ->
  (forall L, 0 <= L ->
     exists out,
       generate_pattern p L "repeat" = Some (Return out)
       /\ len out = L
       /\ forall i, 0 <= i < L ->
            out !! Z.to_nat i = p !! Z.to_nat (i mod 4))
  /\ exists out8,
       generate_pattern p 8 "repeat" = Some (Return out8)
       /\ take 4 out8 = p
       /\ take 4 (drop 4 out8) = p.
Proof.
  intros Hp. split.
  - intros L HL.
    destruct (generate_pattern_cyclic p L "repeat")
      as (out & Hrun & Hlen & Hnth); [lia|unfold recognized; tauto|].
    exists out. split; [done|]. split; [unfold len; lia|].
    intros i Hi. rewrite Hnth by lia.
    change (cycle_of "repeat" (take 4 p)) with (take 4 p).
    rewrite firstn_all2 by lia. rewrite Hp.
    f_equal. change 4%nat with (Z.to_nat 4).
    rewrite Z2Nat.inj_mod by lia. done.
  - destruct p as [|a [|b [|c [|d [|e p]]]]]; try discriminate.
    exists [a; b; c; d; a; b; c; d]. done.
Qed.

Lemma generate_pattern_repeat_witness :
  exists out8,
    generate_pattern ["#010203"; "#0A0B0C"; "#AABBCC"; "#112233"]%string 8 "repeat"
      = Some (Return out8)
    /\ take 4 out8 = ["#010203"; "#0A0B0C"; "#AABBCC"; "#112233"]%string
    /\ take 4 (drop 4 out8) = ["#010203"; "#0A0B0C"; "#AABBCC"; "#112233"]%string.
Proof.
  apply (generate_pattern_repeat ["#010203"; "#0A0B0C"; "#AABBCC"; "#112233"]%string).
  reflexivity.
Defined.

(** C7. For a palette of four colours and every [n >= 0], mode [rotate]
    returns the very list mode [repeat] returns. *)
Theorem generate_pattern_rotate_is_repeat (p : list string) (n : Z) :
  List.length p = 4%nat ->
  0 <= n ->
  exists out,
    generate_pattern p n "rotate" = Some (Return out)
    /\ generate_pattern p n "repeat" = Some (Return out).
Proof.
  intros Hp Hn.
  destruct (generate_pattern_cyclic p n "rotate")
    as (o1 & H1 & Hl1 & Hn1); [lia|unfold recognized; tauto|].
  destruct (generate_pattern_cyclic p n "repeat")
    as (o2 & H2 & Hl2 & Hn2); [lia|unfold recognized; tauto|].
  exists o1. split; [done|]. rewrite H2. do 2 f_equal.
  apply list_eq. intros j.
  destruct (Nat.lt_ge_cases j (Z.to_nat n)).
  - rewrite Hn1, Hn2 by lia. done.
  - rewrite !lookup_ge_None_2 by lia. done.
Qed.

Lemma generate_pattern_rotate_is_repeat_witness :
  exists out,
    generate_pattern ["#010203"; "#0A0B0C"; "#AABBCC"; "#112233"]%string 6 "rotate"
      = Some (Return out)
    /\ generate_pattern ["#010203"; "#0A0B0C"; "#AABBCC"; "#112233"]%string 6 "repeat"
      = Some (Return out).
Proof.
  apply generate_pattern_rotate_is_repeat; [reflexivity|lia].
Defined.

(** C9. A list of more than four colours is not refused: for every
    [L >= 0] and recognized mode the call returns, and returns what the call
    on the first four colours returns. *)
Theorem generate_pattern_uses_first_four (colors : list string) (L : Z)
  (mode : string) :
  (4 < List.length colors)%nat ->
  0 <= L ->
  recognized mode ->
  exists out,
    generate_pattern colors L mode = Some (Return out)
    /\ generate_pattern (take 4 colors) L mode = Some (Return out).
Proof.
  intros Hlen HL Hmode.
  destruct (generate_pattern_cyclic colors L mode)
    as (out & Hrun & _); [lia|done|].
  exists out. split; [done|]. rewrite <- Hrun.
  unfold generate_pattern, generate_pattern_fuel.
  rewrite !guard_passes by (rewrite ?length_take; lia).
  by rewrite take_take.
Qed.

Lemma generate_pattern_uses_first_four_witness :
  exists out,
    generate_pattern ["#000000"; "#111111"; "#222222"; "#333333"; "#444444"]%string
      6 "mirror" = Some (Return out)
    /\ generate_pattern
         (take 4 ["#000000"; "#111111"; "#222222"; "#333333"; "#444444"]%string)
         6 "mirror" = Some (Return out).
Proof.
  apply generate_pattern_uses_first_four;
    [simpl; lia|lia|right; left; reflexivity].
Defined.

(** C10. For a palette of four colours, a recognized mode and a negative
    length, [generate_pattern] returns the empty list. *)
Theorem generate_pattern_negative_length (p : list string) (L : Z)
  (mode : string) :
  List.length p = 4%nat ->
  recognized mode ->
  L < 0 ->
  generate_pattern p L mode = Some (Return []).
Proof.
  intros Hp Hmode HL.
  destruct (generate_pattern_cyclic p L mode)
    as (out & Hrun & Hlen & _); [lia|done|].
  rewrite Hrun. replace (Z.to_nat L) with 0%nat in Hlen by lia.
  destruct out; [done|discriminate].
Qed.

Lemma generate_pattern_negative_length_witness :
  generate_pattern ["#010203"; "#0A0B0C"; "#AABBCC"; "#112233"]%string (-3) "rotate"
  = Some (Return []).
Proof.
  apply generate_pattern_negative_length;
    [reflexivity|right; right; reflexivity|lia].
Defined.

(** ** Digest mode of the extractor *)

Lemma md5_digest_length (content : list byte) :
  List.length (MD5.digest content) = 16%nat.
Proof. reflexivity. Qed.

Lemma format_02X_high (r : byte) :
  is_hex_upper (hex_upper_digit (Z.shiftr (MD5.Z_of_byte r) 4)) = true.
Proof. destruct r; reflexivity. Qed.

Lemma format_02X_low (r : byte) :
  is_hex_upper (hex_upper_digit (Z.land (MD5.Z_of_byte r) 15)) = true.
Proof. destruct r; reflexivity. Qed.

(** A formatted triple of bytes is a colour of the data model. *)
Lemma rgb_is_ColourHex (r g b : byte) :
  is_ColourHex ("#" +:+ format_02X r +:+ format_02X g +:+ format_02X b) = true.
Proof.
  unfold is_ColourHex, format_02X.
  cbv -[is_hex_upper hex_upper_digit MD5.Z_of_byte Z.shiftr Z.land].
  rewrite !format_02X_high, !format_02X_low. reflexivity.
Qed.

Lemma _digest_to_rgb_ColourHex (d : list byte) (c : string) :
  _digest_to_rgb d = Return c -> is_ColourHex c = true.
Proof.
  destruct d as [|r [|g [|b d]]]; simpl; try discriminate.
  intros [= <-]. apply rgb_is_ColourHex.
Qed.

(** On a digest of sixteen bytes the loop reads the groups at 0, 3, 6 and 9
    and never has to wrap. *)
Lemma digest_loop_16 (h : list byte) :
  List.length h = 16%nat ->
  exists c0 c1 c2 c3,
    digest_loop h [0; 1; 2; 3] [] = Return [c0; c1; c2; c3]
    /\ Forall (fun c => is_ColourHex c = true) [c0; c1; c2; c3].
Proof.
  intros Hh.
  do 16 (destruct h as [|? h]; [discriminate|]).
  destruct h; [|discriminate].
  do 4 eexists. split; [reflexivity|].
  repeat constructor; apply rgb_is_ColourHex.
Qed.

Lemma falsy_is_empty (s : string) :
  (if negb (truthy s) then ""%string else s) = s.
Proof.
  unfold truthy. destruct (String.eqb_spec s ""); simpl; congruence.
Qed.

(** C2, as the specification words it, does not hold: a [str] may hold a
    lone surrogate ([json] decoding of an escaped one gives such a [str]),
    and for such an identifier [encode] raises instead of giving bytes to
    hash. *)
Lemma extract_top4_refuses_lone_surrogate :
  ~ (forall s : string,
       String.prefix "http://" s = false ->
       String.prefix "https://" s = false ->
       exists colours,
         List.length colours = 4%nat
         /\ Forall (fun c => is_ColourHex c = true) colours
         /\ forall quantize cache_dir w,
              extract_top4 quantize s cache_dir w = (Return colours, w)).
Proof.
  intros H.
  destruct (H lone_surrogate eq_refl eq_refl) as (colours & _ & _ & Hrun).
  specialize (Hrun no_pillow None offline). vm_compute in Hrun. discriminate.
Qed.

(** C2, amended. For an identifier [s] that starts with neither [http://]
    nor [https://] and holds no lone surrogate, [extract_top4] returns four
    colours of the form [#RRGGBB] with upper-case digits; they are fixed by
    [s] alone: whatever the image library, the cache directory and the state
    of network and file system, the call returns these colours and leaves
    the world as it was, so two calls agree. With a lone surrogate in [s]
    the call raises [UnicodeEncodeError], in every world alike. *)
Theorem extract_top4_digest_mode (s : string) :
  String.prefix "http://" s = false ->
  String.prefix "https://" s = false ->
  (has_surrogate (list_ascii_of_string s) = false ->
   exists colours,
     List.length colours = 4%nat
     /\ Forall (fun c => is_ColourHex c = true) colours
     /\ (forall quantize cache_dir w,
           extract_top4 quantize s cache_dir w = (Return colours, w))
     /\ (forall quantize1 quantize2 cache_dir1 cache_dir2 w1 w2,
           (extract_top4 quantize1 s cache_dir1 w1).1
           = (extract_top4 quantize2 s cache_dir2 w2).1))
  /\ (has_surrogate (list_ascii_of_string s) = true ->
      forall quantize cache_dir w,
        extract_top4 quantize s cache_dir w = (Raise UnicodeEncodeError, w)).
Proof.
  intros Hhttp Hhttps. split.
  - intros Hs.
    destruct (digest_loop_16 (MD5.digest (list_byte_of_string s))
                (md5_digest_length _)) as (c0 & c1 & c2 & c3 & Hloop & Hhex).
    assert (Hrun : forall quantize cache_dir w,
               extract_top4 quantize s cache_dir w
               = (Return [c0; c1; c2; c3], w)).
    { intros quantize cache_dir w. unfold extract_top4, encode_utf8.
      rewrite falsy_is_empty, Hhttp, Hhttps, Hs. cbn [negb orb].
      by rewrite Hloop. }
    exists [c0; c1; c2; c3]. split; [done|]. split; [done|]. split; [done|].
    intros. by rewrite !Hrun.
  - intros Hs quantize cache_dir w. unfold extract_top4, encode_utf8.
    by rewrite falsy_is_empty, Hhttp, Hhttps, Hs.
Qed.

Lemma extract_top4_digest_mode_witness :
  (exists colours,
     List.length colours = 4%nat
     /\ Forall (fun c => is_ColourHex c = true) colours
     /\ (forall quantize cache_dir w,
           extract_top4 quantize "album-42" cache_dir w = (Return colours, w))
     /\ (forall quantize1 quantize2 cache_dir1 cache_dir2 w1 w2,
           (extract_top4 quantize1 "album-42" cache_dir1 w1).1
           = (extract_top4 quantize2 "album-42" cache_dir2 w2).1))
  /\ (forall quantize cache_dir w,
        extract_top4 quantize lone_surrogate cache_dir w
        = (Raise UnicodeEncodeError, w)).
Proof.
  split.
  - apply (extract_top4_digest_mode "album-42"); reflexivity.
  - apply (extract_top4_digest_mode lone_surrogate); reflexivity.
Defined.

(** The colours of one identifier, computed: the MD5 of [album-42] is
    [8f18d9737a35408664f52ef8d88683e8]. *)
Example extract_top4_album_42 (quantize : list byte -> option Quantized)
  (w : World) :
  extract_top4 quantize "album-42" None w
  = (Return ["#8F18D9"; "#737A35"; "#408664"; "#F52EF8"]%string, w).
Proof. vm_compute. reflexivity. Qed.

(** ** The rotation tracker *)

Section Tracker.

Variable quantize : list byte -> option Quantized.


(** A poll that sees another artwork extracts its colours and starts over. *)
Lemma poll_new (st : _RotationState) (Y : string) (w w' : World)
  (pY : list string) :
  truthy Y = true ->
  prev_art st <> Some Y ->
  extract_top4 quantize Y None w = (Return pY, w') ->
  (poll quantize st (Some Y) w).1.1 = mkRotationState (Some Y) 0 pY
  /\ (poll quantize st (Some Y) w).2 = w'.
Proof.
  intros HY Hne Hext. unfold poll. rewrite HY.
  rewrite bool_decide_eq_false_2 by congruence.
  rewrite Hext.
  destruct (generate_pattern _ _ _) as [[?|?]|]; done.
Qed.



End Tracker.


(** ** The downloaded file *)


(** The target of a download lies below the cache directory and is not the
    directory itself. *)
Lemma string_app_length (a b : string) :
  String.length (a +:+ b) = (String.length a + String.length b)%nat.
Proof. induction a as [|c a IH]; simpl; [done|by rewrite IH]. Qed.

Lemma download_target_below (url cache_dir : string) :
  download_target url cache_dir <> cache_dir.
Proof.
  unfold download_target. intros H. apply (f_equal String.length) in H.
  rewrite !string_app_length in H.
  change (String.length "/") with 1%nat in H. lia.
Qed.

(** What [_ensure_cache_dir] changes: the directory is there afterwards. *)
Lemma _ensure_cache_dir_world (cache_dir : option string) (w w0 : World)
  (cache_path : string) :
  _ensure_cache_dir cache_dir w = (Return cache_path, w0) ->
  files w0 = files w /\ network w0 = network w
  /\ dirs w0 = {[cache_path]} ∪ dirs w.
Proof.
  unfold _ensure_cache_dir. intros Hdir.
  destruct (path_exists _ w); inversion Hdir; subst; done.
Qed.

Lemma download_target_dir (cache_dir : option string) (w w0 : World)
  (cache_path url : string) :
  _ensure_cache_dir cache_dir w = (Return cache_path, w0) ->
  bool_decide (download_target url cache_path ∈ dirs w0)
  = bool_decide (download_target url cache_path ∈ dirs w).
Proof.
  intros Hdir. destruct (_ensure_cache_dir_world _ _ _ _ Hdir) as (_ & _ & ->).
  apply bool_decide_ext. pose proof (download_target_below url cache_path).
  rewrite elem_of_union, elem_of_singleton. tauto.
Qed.

Section Cleanup.

Variable quantize : list byte -> option Quantized.


(** C8 fails when the body breaks off while it is streamed: the response
    arrives with a success status, [_download_image] opens the file and
    writes the chunks it got, then [iter_content] raises. [downloaded] is
    still [None] in [extract_top4], whose [finally] therefore removes
    nothing, and the partial file stays in the cache directory. *)
Theorem extract_top4_leaves_partial_download :
  let url := "https://example.com/artwork-large.jpg"%string in
  let w := mkWorld ∅ ∅ (fun _ => Body [[x01; x02]; [x03]] false) "/repo" in
  (extract_top4 quantize url None w).1 = Raise StreamError
  /\ files w !! download_target url "/repo/cache/images" = None
  /\ files (extract_top4 quantize url None w).2
       !! download_target url "/repo/cache/images" = Some [x01; x02; x03].
Proof. vm_compute. done. Qed.

End Cleanup.

(** * Further properties of the code *)

(** ** The pattern generator: modes, elements, prefixes *)

(** A call that returns was given at least four colours and a known mode. *)
Lemma generate_pattern_fuel_returns (fuel : nat) (colors : list string)
  (L : Z) (mode : string) (out : list string) :
  generate_pattern_fuel fuel colors L mode = Some (Return out) ->
  (4 <= List.length colors)%nat /\ recognized mode.
Proof.
  unfold generate_pattern_fuel, recognized. intros H.
  destruct (Nat.lt_ge_cases (List.length colors) 4) as [Hs|Hl].
  { rewrite guard_fails in H by done. discriminate. }
  split; [done|]. rewrite guard_passes in H by done.
  destruct (String.eqb_spec mode "repeat"); [tauto|].
  destruct (String.eqb_spec mode "mirror"); [tauto|].
  destruct (String.eqb_spec mode "rotate"); [tauto|discriminate].
Qed.

(** X1. With four colours or more, a mode other than the three known ones is
    answered with [ValueError("unknown mode: " + mode)], whatever the length
    and the fuel. *)
Theorem generate_pattern_unknown_mode (colors : list string) (L : Z)
  (mode : string) :
  (4 <= List.length colors)%nat ->
  ~ recognized mode ->
  (forall fuel,
     generate_pattern_fuel fuel colors L mode
     = Some (Raise (ValueError ("unknown mode: " +:+ mode))))
  /\ generate_pattern colors L mode
     = Some (Raise (ValueError ("unknown mode: " +:+ mode))).
Proof.
  intros Hlen Hmode.
  assert (H : forall fuel,
             generate_pattern_fuel fuel colors L mode
             = Some (Raise (ValueError ("unknown mode: " +:+ mode)))).
  { intros fuel. unfold generate_pattern_fuel. rewrite guard_passes by done.
    unfold recognized in Hmode.
    destruct (String.eqb_spec mode "repeat"); [tauto|].
    destruct (String.eqb_spec mode "mirror"); [tauto|].
    destruct (String.eqb_spec mode "rotate"); [tauto|done]. }
  split; [done|apply H].
Qed.

Lemma generate_pattern_unknown_mode_witness :
  (forall fuel,
     generate_pattern_fuel fuel
       ["#010203"; "#0A0B0C"; "#AABBCC"; "#112233"]%string 4 "bogus"
     = Some (Raise (ValueError ("unknown mode: " +:+ "bogus"))))
  /\ generate_pattern ["#010203"; "#0A0B0C"; "#AABBCC"; "#112233"]%string 4 "bogus"
     = Some (Raise (ValueError ("unknown mode: " +:+ "bogus"))).
Proof.
  apply generate_pattern_unknown_mode; [simpl; lia|].
  intros [H|[H|H]]; discriminate.
Defined.

Lemma in_cycle_of (mode : string) (base : list string) (c : string) :
  In c (cycle_of mode base) -> In c base.
Proof.
  unfold cycle_of. destruct (String.eqb mode "mirror"); [|done].
  rewrite in_app_iff, <- in_rev. tauto.
Qed.

(** X2. Every element of a returned pattern is one of the first four colours of
    the input: the generator invents no colour and reads none past the
    fourth. *)
Theorem generate_pattern_elements (colors : list string) (L : Z)
  (mode : string) (out : list string) (c : string) :
  generate_pattern colors L mode = Some (Return out) ->
  In c out ->
  In c (take 4 colors).
Proof.
  intros Hrun Hin.
  destruct (generate_pattern_fuel_returns _ _ _ _ _ Hrun) as [Hlen Hmode].
  destruct (generate_pattern_cyclic colors L mode Hlen Hmode)
    as (out' & Hrun' & Hl & Hnth).
  rewrite Hrun in Hrun'. injection Hrun' as <-.
  apply list_elem_of_In, list_elem_of_lookup in Hin. destruct Hin as [j Hj].
  apply (in_cycle_of mode), list_elem_of_In.
  apply (list_elem_of_lookup_2 _ (j mod List.length (cycle_of mode (take 4 colors)))%nat).
  rewrite <- Hnth; [done|]. by apply lookup_lt_Some in Hj.
Qed.

Lemma generate_pattern_elements_witness :
  In "#0A0B0C"%string
     (take 4 ["#010203"; "#0A0B0C"; "#AABBCC"; "#112233"; "#445566"]%string).
Proof.
  apply (generate_pattern_elements
           ["#010203"; "#0A0B0C"; "#AABBCC"; "#112233"; "#445566"]%string
           7 "mirror"
           ["#010203"; "#0A0B0C"; "#AABBCC"; "#112233";
            "#112233"; "#AABBCC"; "#0A0B0C"]%string);
    [reflexivity|simpl; tauto].
Defined.

(** X3. The pattern of a shorter length is the start of the pattern of a longer
    one. *)
Theorem generate_pattern_prefix (colors : list string) (L1 L2 : Z)
  (mode : string) (out2 : list string) :
  L1 <= L2 ->
  generate_pattern colors L2 mode = Some (Return out2) ->
  generate_pattern colors L1 mode = Some (Return (take (Z.to_nat L1) out2)).
Proof.
  intros HL Hrun2.
  destruct (generate_pattern_fuel_returns _ _ _ _ _ Hrun2) as [Hlen Hmode].
  destruct (generate_pattern_cyclic colors L2 mode Hlen Hmode)
    as (o2 & Hr2 & Hl2 & Hn2).
  rewrite Hrun2 in Hr2. injection Hr2 as <-.
  destruct (generate_pattern_cyclic colors L1 mode Hlen Hmode)
    as (o1 & Hr1 & Hl1 & Hn1).
  rewrite Hr1. do 2 f_equal. apply list_eq. intros j.
  destruct (Nat.lt_ge_cases j (Z.to_nat L1)) as [Hj|Hj].
  - rewrite lookup_take_lt by done. rewrite Hn1, Hn2 by lia. done.
  - rewrite lookup_take_ge by done. apply lookup_ge_None_2. lia.
Qed.

Lemma generate_pattern_prefix_witness :
  generate_pattern ["#010203"; "#0A0B0C"; "#AABBCC"; "#112233"]%string 3 "mirror"
  = Some (Return (take (Z.to_nat 3)
                    ["#010203"; "#0A0B0C"; "#AABBCC"; "#112233"; "#112233"; "#AABBCC"]%string)).
Proof.
  apply (generate_pattern_prefix _ 3 6); [lia|reflexivity].
Defined.

(** ** The pattern generator: whole cycles, palindromes, rotated bases *)

Lemma rev_lookup (l : list string) (j : nat) :
  (j < List.length l)%nat ->
  rev l !! j = l !! (List.length l - S j)%nat.
Proof. intros H. rewrite rev_alt. apply (reverse_lookup l j H). Qed.

Lemma mirror_cycle_palindrome (base : list string) (m : nat) :
  List.length base = 4%nat ->
  (m < 8)%nat ->
  (base ++ rev base) !! (7 - m)%nat = (base ++ rev base) !! m.
Proof.
  intros Hb Hm.
  destruct base as [|a [|b [|c [|d [|e base]]]]]; try discriminate.
  do 8 (destruct m as [|m]; [reflexivity|]). lia.
Qed.

(** X4. In mode [mirror] a pattern made of whole cycles (a length that is a
    multiple of 8) reads the same backwards. *)
Theorem generate_pattern_mirror_palindrome (colors : list string) (k : Z)
  (out : list string) :
  0 <= k ->
  generate_pattern colors (8 * k) "mirror" = Some (Return out) ->
  rev out = out.
Proof.
  intros Hk Hrun.
  destruct (generate_pattern_fuel_returns _ _ _ _ _ Hrun) as [Hlen _].
  destruct (generate_pattern_cyclic colors (8 * k) "mirror" Hlen)
    as (o & Hr & Hl & Hn); [unfold recognized; tauto|].
  rewrite Hrun in Hr. injection Hr as <-.
  set (base := take 4 colors) in *.
  assert (Hb : List.length base = 4%nat)
    by (subst base; rewrite length_take; lia).
  change (cycle_of "mirror" base) with (base ++ rev base) in Hn.
  assert (Hc : List.length (base ++ rev base) = 8%nat)
    by (rewrite length_app, length_rev, Hb; done).
  rewrite Hc in Hn.
  apply list_eq. intros j.
  destruct (Nat.lt_ge_cases j (List.length out)) as [Hj|Hj].
  - rewrite rev_lookup by done. rewrite !Hn by lia.
    pose proof (Nat.div_mod_eq j 8) as Hdm.
    assert (Hm : (j mod 8 < 8)%nat) by (apply Nat.mod_upper_bound; lia).
    set (q := (j / 8)%nat) in *. set (m := (j mod 8)%nat) in *.
    replace (List.length out - S j)%nat
      with ((7 - m) + (Z.to_nat k - 1 - q) * 8)%nat by lia.
    rewrite Nat.Div0.mod_add, Nat.mod_small by lia.
    by apply mirror_cycle_palindrome.
  - rewrite !lookup_ge_None_2; [done|lia|rewrite length_rev; lia].
Qed.

Lemma generate_pattern_mirror_palindrome_witness :
  rev ["#010203"; "#0A0B0C"; "#AABBCC"; "#112233";
       "#112233"; "#AABBCC"; "#0A0B0C"; "#010203"]%string
  = ["#010203"; "#0A0B0C"; "#AABBCC"; "#112233";
     "#112233"; "#AABBCC"; "#0A0B0C"; "#010203"]%string.
Proof.
  apply (generate_pattern_mirror_palindrome
           ["#010203"; "#0A0B0C"; "#AABBCC"; "#112233"]%string 1);
    [lia|reflexivity].
Defined.

Lemma length_concat_replicate (cycle : list string) (k : nat) :
  List.length (concat (replicate k cycle)) = (k * List.length cycle)%nat.
Proof.
  induction k as [|k IH]; [done|].
  simpl. rewrite length_app, IH. done.
Qed.

Lemma lookup_concat_replicate (cycle : list string) (k j : nat) :
  (j < k * List.length cycle)%nat ->
  concat (replicate k cycle) !! j = cycle !! (j mod List.length cycle)%nat.
Proof.
  revert j. induction k as [|k IH]; intros j Hj; [simpl in Hj; lia|].
  change (concat (replicate (S k) cycle))
    with (cycle ++ concat (replicate k cycle)).
  destruct (Nat.lt_ge_cases j (List.length cycle)) as [Hl|Hr].
  - rewrite lookup_app_l by done. by rewrite Nat.mod_small.
  - rewrite lookup_app_r by done. rewrite IH by (simpl in Hj; lia).
    f_equal.
    replace j with ((j - List.length cycle) + 1 * List.length cycle)%nat at 2
      by lia.
    by rewrite Nat.Div0.mod_add.
Qed.

Lemma generate_pattern_copies (colors : list string) (mode : string) (k : nat) :
  (4 <= List.length colors)%nat ->
  recognized mode ->
  generate_pattern colors
    (Z.of_nat (k * List.length (cycle_of mode (take 4 colors)))) mode
  = Some (Return (concat (replicate k (cycle_of mode (take 4 colors))))).
Proof.
  intros Hlen Hmode.
  destruct (generate_pattern_cyclic colors
              (Z.of_nat (k * List.length (cycle_of mode (take 4 colors))))
              mode Hlen Hmode) as (o & Hr & Hl & Hn).
  rewrite Hr. do 2 f_equal. rewrite Nat2Z.id in Hl.
  apply list_eq. intros j.
  destruct (Nat.lt_ge_cases j (List.length o)) as [Hj|Hj].
  - rewrite Hn by done. rewrite lookup_concat_replicate by lia. done.
  - rewrite !lookup_ge_None_2; [done|rewrite length_concat_replicate; lia|done].
Qed.

(** X5. A length of [k] whole cycles gives [k] copies of the cycle: [4 * k]
    elements in mode [repeat] are [k] copies of the palette, [8 * k]
    elements in mode [mirror] are [k] copies of the palette followed by its
    reverse. The polling loop and the demo ask for 16 elements in mode
    [repeat], four copies. *)
Theorem generate_pattern_whole_cycles (p : list string) (k : nat) :
  List.length p = 4%nat ->
  generate_pattern p (4 * Z.of_nat k) "repeat"
    = Some (Return (concat (replicate k p)))
  /\ generate_pattern p (8 * Z.of_nat k) "mirror"
    = Some (Return (concat (replicate k (p ++ rev p)))).
Proof.
  intros Hp.
  assert (Ht : take 4 p = p) by (apply firstn_all2; lia).
  split.
  - pose proof (generate_pattern_copies p "repeat" k) as H.
    change (cycle_of "repeat" (take 4 p)) with (take 4 p) in H.
    rewrite Ht, Hp in H.
    replace (4 * Z.of_nat k) with (Z.of_nat (k * 4)) by lia.
    apply H; [lia|unfold recognized; tauto].
  - pose proof (generate_pattern_copies p "mirror" k) as H.
    change (cycle_of "mirror" (take 4 p)) with (take 4 p ++ rev (take 4 p)) in H.
    rewrite Ht, length_app, length_rev, Hp in H.
    replace (8 * Z.of_nat k) with (Z.of_nat (k * (4 + 4))) by lia.
    apply H; [lia|unfold recognized; tauto].
Qed.

Lemma generate_pattern_whole_cycles_witness :
  generate_pattern ["#010203"; "#0A0B0C"; "#AABBCC"; "#112233"]%string
    (4 * Z.of_nat 4) "repeat"
    = Some (Return (concat (replicate 4
                      ["#010203"; "#0A0B0C"; "#AABBCC"; "#112233"]%string)))
  /\ generate_pattern ["#010203"; "#0A0B0C"; "#AABBCC"; "#112233"]%string
       (8 * Z.of_nat 4) "mirror"
    = Some (Return (concat (replicate 4
                      (["#010203"; "#0A0B0C"; "#AABBCC"; "#112233"]%string
                       ++ rev ["#010203"; "#0A0B0C"; "#AABBCC"; "#112233"]%string)))).
Proof.
  apply generate_pattern_whole_cycles. reflexivity.
Defined.

Lemma rotated_lookup (p : list string) (r m : nat) :
  List.length p = 4%nat ->
  (r < 4)%nat ->
  (m < 4)%nat ->
  (drop r p ++ take r p) !! m = p !! ((m + r) mod 4)%nat.
Proof.
  intros Hp Hr Hm.
  destruct p as [|a [|b [|c [|d [|e p]]]]]; try discriminate.
  do 4 (destruct r as [|r];
        [do 4 (destruct m as [|m]; [reflexivity|]); lia|]).
  lia.
Qed.

(** X6. The base the tracker rotates by [r] places gives, in mode [repeat], the
    pattern of the unrotated palette shifted by [r]: what the generator
    returns for the rotated base is what it returns for the palette itself
    at length [L + r], without the first [r] elements. *)
Theorem generate_pattern_rotated (p : list string) (r : nat) (L : Z) :
  List.length p = 4%nat ->
  (r < 4)%nat ->
  0 <= L ->
  exists out,
    generate_pattern p (L + Z.of_nat r) "repeat" = Some (Return out)
    /\ generate_pattern (drop r p ++ take r p) L "repeat"
       = Some (Return (drop r out)).
Proof.
  intros Hp Hr HL.
  assert (Hrec : recognized "repeat") by (unfold recognized; tauto).
  destruct (generate_pattern_cyclic p (L + Z.of_nat r) "repeat")
    as (o1 & H1 & Hl1 & Hn1); [lia|done|].
  assert (Hrot : List.length (drop r p ++ take r p) = 4%nat)
    by (rewrite length_app, length_drop, length_take; lia).
  destruct (generate_pattern_cyclic (drop r p ++ take r p) L "repeat")
    as (o2 & H2 & Hl2 & Hn2); [lia|done|].
  exists o1. split; [done|]. rewrite H2. do 2 f_equal.
  change (cycle_of "repeat" ?b) with b in Hn1, Hn2.
  rewrite (firstn_all2 p) in Hn1 by lia.
  rewrite (firstn_all2 (drop r p ++ take r p)) in Hn2 by lia.
  rewrite Hp in Hn1. rewrite Hrot in Hn2.
  apply list_eq. intros j. rewrite lookup_drop.
  destruct (Nat.lt_ge_cases j (Z.to_nat L)) as [Hj|Hj].
  - rewrite Hn2, Hn1 by lia.
    rewrite rotated_lookup; [|done|done|apply Nat.mod_upper_bound; lia].
    rewrite Nat.Div0.add_mod_idemp_l. f_equal. f_equal. lia.
  - rewrite !lookup_ge_None_2; [done|lia|lia].
Qed.

Lemma generate_pattern_rotated_witness :
  exists out,
    generate_pattern ["#010203"; "#0A0B0C"; "#AABBCC"; "#112233"]%string
      (16 + Z.of_nat 2) "repeat" = Some (Return out)
    /\ generate_pattern
         (drop 2 ["#010203"; "#0A0B0C"; "#AABBCC"; "#112233"]%string
          ++ take 2 ["#010203"; "#0A0B0C"; "#AABBCC"; "#112233"]%string)
         16 "repeat"
       = Some (Return (drop 2 out)).
Proof.
  apply generate_pattern_rotated; [reflexivity|lia|lia].
Defined.

(** ** The digest colours *)

Lemma upper_hex_high (b : byte) :
  upper (MD5.hex_lower_digit (Z.shiftr (MD5.Z_of_byte b) 4))
  = hex_upper_digit (Z.shiftr (MD5.Z_of_byte b) 4).
Proof. destruct b; reflexivity. Qed.

Lemma upper_hex_low (b : byte) :
  upper (MD5.hex_lower_digit (Z.land (MD5.Z_of_byte b) 15))
  = hex_upper_digit (Z.land (MD5.Z_of_byte b) 15).
Proof. destruct b; reflexivity. Qed.

(** X7. [extract_top4_from_digest] returns, for every content, four colours of
    the form [#RRGGBB]: the first twenty-four digits of the MD5 hex digest,
    in upper case, cut into groups of six. The last four bytes of the digest
    are not used and the wrap-around of the loop is never taken. *)
Theorem extract_top4_from_digest_hexdigest (content : list byte) :
  extract_top4_from_digest content
  = Return (map (fun i => "#" +:+ upper_string
                             (substring (6 * i) 6 (MD5.hexdigest content)))
                [0; 1; 2; 3]%nat)
  /\ Forall (fun c => is_ColourHex c = true)
       (map (fun i => "#" +:+ upper_string
                        (substring (6 * i) 6 (MD5.hexdigest content)))
            [0; 1; 2; 3]%nat).
Proof.
  assert (Hrun :
    extract_top4_from_digest content
    = Return (map (fun i => "#" +:+ upper_string
                               (substring (6 * i) 6 (MD5.hexdigest content)))
                  [0; 1; 2; 3]%nat)).
  { unfold extract_top4_from_digest, MD5.hexdigest.
    pose proof (md5_digest_length content) as Hlen.
    generalize dependent (MD5.digest content). intros h Hlen.
    do 16 (destruct h as [|? h]; [discriminate|]).
    destruct h; [|discriminate].
    cbv -[upper MD5.hex_lower_digit hex_upper_digit MD5.Z_of_byte
          Z.shiftr Z.land].
    rewrite !upper_hex_high, !upper_hex_low. reflexivity. }
  split; [done|].
  destruct (digest_loop_16 (MD5.digest content) (md5_digest_length _))
    as (c0 & c1 & c2 & c3 & Hloop & Hhex).
  assert (Hloop' : extract_top4_from_digest content = Return [c0; c1; c2; c3])
    by exact Hloop.
  match type of Hrun with
  | _ = Return ?m => assert (Heq : m = [c0; c1; c2; c3]) by congruence
  end.
  rewrite Heq. done.
Qed.



(** ** The colours of an image file *)

Lemma mem_In (c : string) (colours : list string) :
  mem c colours = true <-> In c colours.
Proof.
  unfold mem. rewrite existsb_exists. split.
  - intros (x & Hx & He). apply String.eqb_eq in He. by subst.
  - intros H. exists c. split; [done|apply String.eqb_refl].
Qed.

Lemma mem_false (c : string) (colours : list string) :
  mem c colours = false <-> ~ In c colours.
Proof.
  rewrite <- mem_In. destruct (mem c colours); split; congruence.
Qed.

(** Appending a colour that is not there yet. *)
Lemma add_new_ok (c : string) (colours : list string) :
  palette_ok colours ->
  is_ColourHex c = true ->
  palette_ok (if mem c colours then colours else colours ++ [c]).
Proof.
  intros [Hnd Hhex] Hc. destruct (mem c colours) eqn:Hm; [done|].
  apply mem_false in Hm. split.
  - apply NoDup_app. split; [done|]. split; [|apply NoDup_singleton].
    intros x Hx Hx'. apply list_elem_of_singleton in Hx'. subst.
    by apply list_elem_of_In in Hx.
  - apply Forall_app. split; [done|]. by constructor.
Qed.

Lemma add_new_length (c : string) (colours : list string) :
  (List.length colours
   <= List.length (if mem c colours then colours else colours ++ [c])
   <= S (List.length colours))%nat.
Proof.
  destruct (mem c colours); [lia|]. rewrite length_app. simpl. lia.
Qed.

Lemma add_new_prefix (c : string) (colours : list string) :
  exists more,
    (if mem c colours then colours else colours ++ [c]) = colours ++ more.
Proof.
  destruct (mem c colours); [exists []; by rewrite app_nil_r|by exists [c]].
Qed.

(** What the loop over the counted colours keeps true. *)
Lemma pick_colours_spec (counted : list (Z * (byte * byte * byte)))
  (colours : list string) :
  palette_ok colours ->
  (List.length colours < 4)%nat ->
  palette_ok (pick_colours counted colours)
  /\ (List.length (pick_colours counted colours) <= 4)%nat
  /\ exists more, pick_colours counted colours = colours ++ more.
Proof.
  revert colours. induction counted as [|[n [[r g] b]] rest IH];
    intros colours Hok Hlen; simpl.
  { split; [done|]. split; [lia|]. exists []. by rewrite app_nil_r. }
  destruct (_ && _); [by apply IH|].
  set (hexc := "#" +:+ format_02X r +:+ format_02X g +:+ format_02X b).
  pose proof (add_new_ok hexc colours Hok (rgb_is_ColourHex r g b)) as Hok'.
  pose proof (add_new_length hexc colours) as Hlen'.
  destruct (add_new_prefix hexc colours) as [more Hmore].
  set (colours' := if mem hexc colours then colours else colours ++ [hexc]) in *.
  destruct (Z.geb_spec (len colours') 4) as [Hge|Hlt].
  - split; [done|]. split; [lia|]. by exists more.
  - destruct (IH colours' Hok') as (H1 & H2 & more' & H3);
      [unfold len in Hlt; lia|].
    split; [done|]. split; [done|].
    exists (more ++ more'). by rewrite H3, Hmore, app_assoc.
Qed.

Lemma top_up_spec (fallback colours : list string) :
  Forall (fun c => is_ColourHex c = true) fallback ->
  palette_ok colours ->
  (List.length colours < 4)%nat ->
  palette_ok (top_up fallback colours)
  /\ (List.length (top_up fallback colours) <= 4)%nat
  /\ exists more, top_up fallback colours = colours ++ more.
Proof.
  revert colours. induction fallback as [|c rest IH];
    intros colours Hfb Hok Hlen; simpl.
  { split; [done|]. split; [lia|]. exists []. by rewrite app_nil_r. }
  inversion Hfb as [|? ? Hc Hrest]; subst.
  pose proof (add_new_ok c colours Hok Hc) as Hok'.
  pose proof (add_new_length c colours) as Hlen'.
  destruct (add_new_prefix c colours) as [more Hmore].
  set (colours' := if mem c colours then colours else colours ++ [c]) in *.
  destruct (Z.geb_spec (len colours') 4) as [Hge|Hlt].
  - split; [done|]. split; [lia|]. by exists more.
  - destruct (IH colours' Hrest Hok') as (H1 & H2 & more' & H3);
      [unfold len in Hlt; lia|].
    split; [done|]. split; [done|].
    exists (more ++ more'). by rewrite H3, Hmore, app_assoc.
Qed.

Lemma palette_ok_nil : palette_ok [].
Proof. split; [apply NoDup_nil_2|constructor]. Qed.

Lemma extract_top4_from_digest_ColourHex (content : list byte)
  (fallback : list string) :
  extract_top4_from_digest content = Return fallback ->
  List.length fallback = 4%nat
  /\ Forall (fun c => is_ColourHex c = true) fallback.
Proof.
  intros H. unfold extract_top4_from_digest in H.
  destruct (digest_loop_16 (MD5.digest content) (md5_digest_length _))
    as (c0 & c1 & c2 & c3 & Hloop & Hhex).
  rewrite Hloop in H. injection H as <-. done.
Qed.

Section ImageColours.

Variable quantize : list byte -> option Quantized.

(** The steps of [_extract_top4_from_file], read back from a call that
    returned. *)
Lemma _extract_top4_from_file_returns (path : string) (w : World)
  (l : list string) :
  _extract_top4_from_file quantize path w = Return l ->
  exists content q counted,
    read_bytes path w = Return content
    /\ quantize content = Some q
    /\ count_colours (q_palette q) (q_counts q) = Return counted
    /\ ((4 <= List.length (pick_colours (sort_desc counted) []))%nat
        /\ l = pick_colours (sort_desc counted) []
        \/ (List.length (pick_colours (sort_desc counted) []) < 4)%nat
           /\ exists fallback,
                extract_top4_from_digest content = Return fallback
                /\ l = top_up fallback (pick_colours (sort_desc counted) [])).
Proof.
  unfold _extract_top4_from_file. intros H.
  destruct (read_bytes path w) as [content|] eqn:Hread; [|discriminate].
  cbn [bind] in H.
  destruct (quantize content) as [q|] eqn:Hq; [|discriminate].
  destruct (count_colours _ _) as [counted|] eqn:Hcount; [|discriminate].
  cbn [bind] in H.
  exists content, q, counted. split; [done|]. split; [done|]. split; [done|].
  destruct (pick_colours_spec (sort_desc counted) [] palette_ok_nil)
    as (Hok & Hle & _); [simpl; lia|].
  destruct (Z.ltb_spec (len (pick_colours (sort_desc counted) [])) 4)
    as [Hlt|Hge].
  - right. split; [unfold len in Hlt; lia|].
    destruct (extract_top4_from_digest content) as [fallback|] eqn:Hfb;
      [|discriminate].
    cbn [bind] in H. exists fallback. split; [done|].
    destruct (extract_top4_from_digest_ColourHex _ _ Hfb) as [_ Hhex].
    destruct (top_up_spec fallback _ Hhex Hok) as (_ & Hle' & _);
      [unfold len in Hlt; lia|].
    injection H as <-. apply firstn_all2. lia.
  - left. unfold len in Hge. split; [lia|].
    cbn [bind] in H. injection H as <-. apply firstn_all2. lia.
Qed.

Lemma image_palette_ok (path : string) (w : World)
  (l : list string) :
  _extract_top4_from_file quantize path w = Return l ->
  (List.length l <= 4)%nat
  /\ NoDup l
  /\ Forall (fun c => is_ColourHex c = true) l.
Proof.
  intros H.
  destruct (_extract_top4_from_file_returns _ _ _ H)
    as (content & q & counted & _ & _ & _ & Hcases).
  destruct (pick_colours_spec (sort_desc counted) [] palette_ok_nil)
    as ([Hnd Hhex] & Hle & _); [simpl; lia|].
  destruct Hcases as [[_ ->]|(Hlt & fallback & Hfb & ->)]; [done|].
  destruct (extract_top4_from_digest_ColourHex _ _ Hfb) as [_ Hfhex].
  destruct (top_up_spec fallback _ Hfhex (conj Hnd Hhex) Hlt)
    as ([Hnd' Hhex'] & Hle' & _).
  done.
Qed.

(** X9. A palette read from a file has at most four colours, all different, each
    of the form [#RRGGBB]. *)
Theorem _extract_top4_from_file_palette (path : string) (w : World)
  (l : list string) :
  _extract_top4_from_file quantize path w = Return l ->
  (List.length l <= 4)%nat
  /\ NoDup l
  /\ Forall (fun c => is_ColourHex c = true) l.
Proof. apply image_palette_ok. Qed.

Lemma image_colours_prefix (path : string) (w : World)
  (content : list byte) (q : Quantized)
  (counted : list (Z * (byte * byte * byte))) (l : list string) :
  read_bytes path w = Return content ->
  quantize content = Some q ->
  count_colours (q_palette q) (q_counts q) = Return counted ->
  _extract_top4_from_file quantize path w = Return l ->
  exists more, l = pick_colours (sort_desc counted) [] ++ more.
Proof.
  intros Hread Hq Hcount H.
  destruct (_extract_top4_from_file_returns _ _ _ H)
    as (content' & q' & counted' & Hread' & Hq' & Hcount' & Hcases).
  rewrite Hread in Hread'. injection Hread' as <-.
  rewrite Hq in Hq'. injection Hq' as <-.
  rewrite Hcount in Hcount'. injection Hcount' as <-.
  destruct (pick_colours_spec (sort_desc counted) [] palette_ok_nil)
    as (Hok & Hle & _); [simpl; lia|].
  destruct Hcases as [[_ ->]|(Hlt & fallback & Hfb & ->)].
  - exists []. by rewrite app_nil_r.
  - destruct (extract_top4_from_digest_ColourHex _ _ Hfb) as [_ Hfhex].
    destruct (top_up_spec fallback _ Hfhex Hok Hlt) as (_ & _ & more & Hmore).
    by exists more.
Qed.

(** X10. The colours found in the image come first and in their order: the
    fallback only adds after them. *)
Theorem _extract_top4_from_file_image_first (path : string) (w : World)
  (content : list byte) (q : Quantized)
  (counted : list (Z * (byte * byte * byte))) (l : list string) :
  read_bytes path w = Return content ->
  quantize content = Some q ->
  count_colours (q_palette q) (q_counts q) = Return counted ->
  _extract_top4_from_file quantize path w = Return l ->
  exists more, l = pick_colours (sort_desc counted) [] ++ more.
Proof. apply image_colours_prefix. Qed.

End ImageColours.

Lemma _extract_top4_from_file_palette_witness :
  (List.length ["#102030"; "#000000"; "#55A540"; "#08AD1B"]%string <= 4)%nat
  /\ NoDup ["#102030"; "#000000"; "#55A540"; "#08AD1B"]%string
  /\ Forall (fun c => is_ColourHex c = true)
       ["#102030"; "#000000"; "#55A540"; "#08AD1B"]%string.
Proof.
  apply (_extract_top4_from_file_palette sample_pillow "/img.png" sample_disk).
  vm_compute. reflexivity.
Defined.

Lemma _extract_top4_from_file_image_first_witness :
  exists more,
    ["#102030"; "#000000"; "#55A540"; "#08AD1B"]%string
    = pick_colours
        (sort_desc [(50, (xff, xff, xff)); (30, (x10, x20, x30));
                    (5, (x10, x20, x30)); (15, (x00, x00, x00))]) []
      ++ more.
Proof.
  apply (_extract_top4_from_file_image_first sample_pillow "/img.png"
           sample_disk [x01]
           (mkQuantized
              [xff; xff; xff; x10; x20; x30; x10; x20; x30; x00; x00; x00]
              [(50, 0); (30, 1); (5, 2); (15, 3)]));
    vm_compute; reflexivity.
Defined.

(** ** The colours of an image file: where they come from *)

Lemma insert_desc_perm {A : Type} (x : Z * A) (l : list (Z * A)) :
  Permutation (insert_desc x l) (x :: l).
Proof.
  induction l as [|y t IH]; simpl; [done|].
  destruct (fst y <=? fst x); [done|].
  rewrite IH. apply perm_swap.
Qed.

Lemma sort_desc_perm {A : Type} (l : list (Z * A)) :
  Permutation (sort_desc l) l.
Proof.
  induction l as [|x t IH]; simpl; [done|].
  rewrite insert_desc_perm. by constructor.
Qed.

Lemma sort_desc_In {A : Type} (l : list (Z * A)) (x : Z * A) :
  In x (sort_desc l) <-> In x l.
Proof.
  split; apply Permutation_in; [|symmetry]; apply sort_desc_perm.
Qed.

Lemma insert_desc_sorted {A : Type} (x : Z * A) (l : list (Z * A)) :
  StronglySorted (fun a b => fst b <= fst a) l ->
  StronglySorted (fun a b => fst b <= fst a) (insert_desc x l).
Proof.
  induction l as [|y t IH]; intros Hs; simpl.
  { constructor; constructor. }
  inversion Hs as [|? ? Ht Hy]; subst.
  destruct (Z.leb_spec (fst y) (fst x)) as [Hle|Hgt].
  - constructor; [done|]. constructor; [done|].
    eapply Forall_impl; [exact Hy|]. simpl. intros. lia.
  - constructor; [by apply IH|].
    apply Forall_forall. intros z Hz. apply list_elem_of_In in Hz.
    apply (Permutation_in _ (insert_desc_perm x t)) in Hz.
    destruct Hz as [<-|Hz]; [lia|].
    rewrite Forall_forall in Hy. by apply Hy, list_elem_of_In.
Qed.

(** [sort_desc] sorts: the counts go down. *)
Lemma sort_desc_sorted {A : Type} (l : list (Z * A)) :
  StronglySorted (fun a b => fst b <= fst a) (sort_desc l).
Proof.
  induction l as [|x t IH]; simpl; [constructor|].
  by apply insert_desc_sorted.
Qed.

Lemma pick_colours_origin (counted : list (Z * (byte * byte * byte)))
  (colours : list string) (c : string) :
  In c (pick_colours counted colours) ->
  In c colours
  \/ exists n r g b,
       In (n, (r, g, b)) counted
       /\ near_white r g b = false
       /\ c = rgb_hex r g b.
Proof.
  revert colours. induction counted as [|[n [[r g] b]] rest IH];
    intros colours Hin; simpl in Hin; [tauto|].
  fold (near_white r g b) in Hin. fold (rgb_hex r g b) in Hin.
  destruct (near_white r g b) eqn:Hw.
  - destruct (IH _ Hin) as [H|(n' & r' & g' & b' & H1 & H2 & H3)]; [tauto|].
    right. exists n', r', g', b'. simpl. tauto.
  - assert (Hadd : forall x,
               In x (if mem (rgb_hex r g b) colours then colours
                     else colours ++ [rgb_hex r g b]) ->
               In x colours \/ x = rgb_hex r g b).
    { intros x Hx. destruct (mem _ colours); [tauto|].
      apply in_app_iff in Hx. simpl in Hx. intuition. }
    destruct (len _ >=? 4).
    + destruct (Hadd _ Hin) as [H| ->]; [tauto|].
      right. exists n, r, g, b. simpl. tauto.
    + destruct (IH _ Hin) as [H|(n' & r' & g' & b' & H1 & H2 & H3)].
      * destruct (Hadd _ H) as [H'| ->]; [tauto|].
        right. exists n, r, g, b. simpl. tauto.
      * right. exists n', r', g', b'. simpl. tauto.
Qed.

Lemma top_up_origin (fallback colours : list string) (c : string) :
  In c (top_up fallback colours) ->
  In c colours \/ In c fallback.
Proof.
  revert colours. induction fallback as [|f rest IH];
    intros colours Hin; simpl in Hin; [tauto|].
  assert (Hadd : forall x,
             In x (if mem f colours then colours else colours ++ [f]) ->
             In x colours \/ x = f).
  { intros x Hx. destruct (mem f colours); [tauto|].
    apply in_app_iff in Hx. simpl in Hx. intuition. }
  destruct (len _ >=? 4).
  - destruct (Hadd _ Hin) as [H| ->]; simpl; tauto.
  - destruct (IH _ Hin) as [H|H]; [|simpl; tauto].
    destruct (Hadd _ H) as [H'| ->]; simpl; tauto.
Qed.

(** On a list sorted by count, the loop starts with the first colour that is
    not near white, and no such colour has a larger count. *)
Lemma pick_colours_head (sorted : list (Z * (byte * byte * byte)))
  (n : Z) (r g b : byte) :
  StronglySorted (fun x y => fst y <= fst x) sorted ->
  In (n, (r, g, b)) sorted ->
  near_white r g b = false ->
  exists n1 r1 g1 b1 tl,
    pick_colours sorted [] = rgb_hex r1 g1 b1 :: tl
    /\ In (n1, (r1, g1, b1)) sorted
    /\ near_white r1 g1 b1 = false
    /\ forall n2 r2 g2 b2,
         In (n2, (r2, g2, b2)) sorted ->
         near_white r2 g2 b2 = false ->
         n2 <= n1.
Proof.
  induction sorted as [|[n0 [[r0 g0] b0]] rest IH]; intros Hs Hin Hnw;
    [destruct Hin|].
  inversion Hs as [|? ? Hrest Hall]; subst.
  simpl. fold (near_white r0 g0 b0). fold (rgb_hex r0 g0 b0).
  destruct (near_white r0 g0 b0) eqn:Hw0.
  - destruct Hin as [Heq|Hin]; [congruence|].
    destruct (IH Hrest Hin Hnw) as (n1 & r1 & g1 & b1 & tl & H1 & H2 & H3 & H4).
    exists n1, r1, g1, b1, tl. split; [done|]. split; [tauto|].
    split; [done|].
    intros n2 r2 g2 b2 [Heq|Hin2] Hnw2; [congruence|eauto].
  - change (len [rgb_hex r0 g0 b0] >=? 4) with false. cbv iota.
    destruct (pick_colours_spec rest [rgb_hex r0 g0 b0]) as (_ & _ & more & Hmore).
    { split; [apply NoDup_singleton|].
      constructor; [apply rgb_is_ColourHex|constructor]. }
    { simpl. lia. }
    exists n0, r0, g0, b0, more. split; [by rewrite Hmore|].
    split; [tauto|]. split; [done|].
    intros n2 r2 g2 b2 [Heq|Hin2] Hnw2; [injection Heq; lia|].
    rewrite Forall_forall in Hall.
    apply list_elem_of_In in Hin2. apply (Hall _ Hin2).
Qed.

Lemma filter_NoDup (f : string -> bool) (l : list string) :
  NoDup l -> NoDup (List.filter f l).
Proof.
  induction l as [|x t IH]; intros Hnd; simpl; [done|].
  apply NoDup_cons in Hnd. destruct Hnd as [Hx Ht].
  destruct (f x); [|by apply IH].
  apply NoDup_cons. split; [|by apply IH].
  intros Hin. apply Hx. apply list_elem_of_In.
  apply list_elem_of_In, filter_In in Hin. tauto.
Qed.

Lemma filter_split_length (f : string -> bool) (l : list string) :
  (List.length (List.filter f l)
   + List.length (List.filter (fun x => negb (f x)) l))%nat
  = List.length l.
Proof.
  induction l as [|x t IH]; simpl; [done|].
  destruct (f x); simpl; lia.
Qed.

(** Of a list without repetition, at most [length colours] elements are in
    [colours]. *)
Lemma new_colours_count (fallback colours : list string) :
  NoDup fallback ->
  (List.length fallback
   <= List.length colours
      + List.length (List.filter (fun c => negb (mem c colours)) fallback))%nat.
Proof.
  intros Hnd.
  pose proof (filter_split_length (fun c => mem c colours) fallback) as Hsplit.
  assert (Hle : (List.length (List.filter (fun c => mem c colours) fallback)
                 <= List.length colours)%nat).
  { apply submseteq_length, NoDup_submseteq; [by apply filter_NoDup|].
    intros x Hx. apply list_elem_of_In, filter_In in Hx.
    apply list_elem_of_In, mem_In. tauto. }
  lia.
Qed.

Lemma top_up_fills (fallback colours : list string) :
  NoDup fallback ->
  (List.length colours < 4)%nat ->
  (4 <= List.length colours
        + List.length (List.filter (fun c => negb (mem c colours)) fallback))%nat ->
  List.length (top_up fallback colours) = 4%nat.
Proof.
  revert colours. induction fallback as [|c rest IH];
    intros colours Hnd Hlen Hcount; simpl in *; [lia|].
  apply NoDup_cons in Hnd. destruct Hnd as [Hc Hrest].
  destruct (mem c colours) eqn:Hm; simpl in Hcount.
  - destruct (Z.geb_spec (len colours) 4) as [Hge|_];
      [unfold len in Hge; lia|].
    by apply IH.
  - destruct (Z.geb_spec (len (colours ++ [c])) 4) as [Hge|Hlt];
      unfold len in *; rewrite length_app in *; simpl in *; [lia|].
    apply IH; [done|rewrite length_app; simpl; lia|].
    rewrite length_app. simpl.
    rewrite (filter_ext_in (fun x => negb (mem x (colours ++ [c])))
                           (fun x => negb (mem x colours))); [lia|].
    intros x Hx. f_equal. unfold mem. rewrite existsb_app. simpl.
    destruct (String.eqb_spec x c) as [->|_]; [|by rewrite !orb_false_r].
    exfalso. apply Hc. by apply list_elem_of_In.
Qed.

Section ImageOrigin.

Variable quantize : list byte -> option Quantized.

(** X11. When the four colours of the file's digest are all different, the
    palette read from the file has exactly four colours. *)
Theorem _extract_top4_from_file_four (path : string) (w : World)
  (content : list byte) (fallback l : list string) :
  read_bytes path w = Return content ->
  extract_top4_from_digest content = Return fallback ->
  NoDup fallback ->
  _extract_top4_from_file quantize path w = Return l ->
  List.length l = 4%nat.
Proof.
  intros Hread Hfb Hnd H.
  destruct (_extract_top4_from_file_returns _ _ _ _ H)
    as (content' & q & counted & Hread' & _ & _ & Hcases).
  rewrite Hread in Hread'. injection Hread' as <-.
  destruct (pick_colours_spec (sort_desc counted) [] palette_ok_nil)
    as (Hok & Hle & _); [simpl; lia|].
  destruct Hcases as [[Hge ->]|(Hlt & fallback' & Hfb' & ->)]; [lia|].
  rewrite Hfb in Hfb'. injection Hfb' as <-.
  destruct (extract_top4_from_digest_ColourHex _ _ Hfb) as [Hfour _].
  apply top_up_fills; [done|done|].
  pose proof (new_colours_count fallback
                (pick_colours (sort_desc counted) []) Hnd).
  lia.
Qed.

(** X12. Every colour of a palette read from a file is a palette entry of the
    image that is not near white, or one of the digest colours of the file's
    bytes. *)
Theorem _extract_top4_from_file_origin (path : string) (w : World)
  (content : list byte) (q : Quantized)
  (counted : list (Z * (byte * byte * byte))) (fallback l : list string)
  (c : string) :
  read_bytes path w = Return content ->
  quantize content = Some q ->
  count_colours (q_palette q) (q_counts q) = Return counted ->
  extract_top4_from_digest content = Return fallback ->
  _extract_top4_from_file quantize path w = Return l ->
  In c l ->
  (exists n r g b,
     In (n, (r, g, b)) counted
     /\ near_white r g b = false
     /\ c = rgb_hex r g b)
  \/ In c fallback.
Proof.
  intros Hread Hq Hcount Hfb H Hin.
  destruct (_extract_top4_from_file_returns _ _ _ _ H)
    as (content' & q' & counted' & Hread' & Hq' & Hcount' & Hcases).
  rewrite Hread in Hread'. injection Hread' as <-.
  rewrite Hq in Hq'. injection Hq' as <-.
  rewrite Hcount in Hcount'. injection Hcount' as <-.
  assert (Hpick : forall x,
             In x (pick_colours (sort_desc counted) []) ->
             exists n r g b,
               In (n, (r, g, b)) counted
               /\ near_white r g b = false /\ x = rgb_hex r g b).
  { intros x Hx.
    destruct (pick_colours_origin _ _ _ Hx)
      as [[]|(n & r & g & b & H1 & H2 & H3)].
    exists n, r, g, b. by rewrite <- sort_desc_In. }
  destruct Hcases as [[_ ->]|(_ & fallback' & Hfb' & ->)]; [left; eauto|].
  rewrite Hfb in Hfb'. injection Hfb' as <-.
  destruct (top_up_origin _ _ _ Hin) as [Hx|Hx]; [left; eauto|by right].
Qed.

(** X13. When the image has a colour that is not near white, the palette starts
    with such a colour, and none of them covers more pixels: the dominant
    colour comes first. *)
Theorem _extract_top4_from_file_dominant_first (path : string) (w : World)
  (content : list byte) (q : Quantized)
  (counted : list (Z * (byte * byte * byte))) (l : list string)
  (n : Z) (r g b : byte) :
  read_bytes path w = Return content ->
  quantize content = Some q ->
  count_colours (q_palette q) (q_counts q) = Return counted ->
  _extract_top4_from_file quantize path w = Return l ->
  In (n, (r, g, b)) counted ->
  near_white r g b = false ->
  exists n1 r1 g1 b1 tl,
    l = rgb_hex r1 g1 b1 :: tl
    /\ In (n1, (r1, g1, b1)) counted
    /\ near_white r1 g1 b1 = false
    /\ forall n2 r2 g2 b2,
         In (n2, (r2, g2, b2)) counted ->
         near_white r2 g2 b2 = false ->
         n2 <= n1.
Proof.
  intros Hread Hq Hcount H Hin Hnw.
  destruct (image_colours_prefix _ _ _ _ _ _ _
              Hread Hq Hcount H) as [more ->].
  destruct (pick_colours_head (sort_desc counted) n r g b)
    as (n1 & r1 & g1 & b1 & tl & H1 & H2 & H3 & H4);
    [apply sort_desc_sorted|by apply sort_desc_In|done|].
  exists n1, r1, g1, b1, (tl ++ more). rewrite H1.
  split; [done|]. split; [by apply sort_desc_In|]. split; [done|].
  intros n2 r2 g2 b2 Hin2 Hnw2. apply (H4 n2 r2 g2 b2); [|done].
  by apply sort_desc_In.
Qed.

End ImageOrigin.

Lemma _extract_top4_from_file_four_witness :
  List.length ["#102030"; "#000000"; "#55A540"; "#08AD1B"]%string = 4%nat.
Proof.
  apply (_extract_top4_from_file_four sample_pillow "/img.png" sample_disk
           [x01] ["#55A540"; "#08AD1B"; "#A589AA"; "#210D26"]%string);
    [vm_compute; reflexivity|vm_compute; reflexivity
    |apply (bool_decide_unpack _); vm_compute; exact I
    |vm_compute; reflexivity].
Defined.

Lemma _extract_top4_from_file_origin_witness :
  (exists n r g b,
     In (n, (r, g, b))
        [(50, (xff, xff, xff)); (30, (x10, x20, x30));
         (5, (x10, x20, x30)); (15, (x00, x00, x00))]
     /\ near_white r g b = false
     /\ "#000000"%string = rgb_hex r g b)
  \/ In "#000000"%string ["#55A540"; "#08AD1B"; "#A589AA"; "#210D26"]%string.
Proof.
  apply (_extract_top4_from_file_origin sample_pillow "/img.png" sample_disk
           [x01]
           (mkQuantized
              [xff; xff; xff; x10; x20; x30; x10; x20; x30; x00; x00; x00]
              [(50, 0); (30, 1); (5, 2); (15, 3)])
           _ _ ["#102030"; "#000000"; "#55A540"; "#08AD1B"]%string);
    [vm_compute; reflexivity|vm_compute; reflexivity|vm_compute; reflexivity
    |vm_compute; reflexivity|vm_compute; reflexivity|simpl; tauto].
Defined.

Lemma _extract_top4_from_file_dominant_first_witness :
  exists n1 r1 g1 b1 tl,
    ["#102030"; "#000000"; "#55A540"; "#08AD1B"]%string
    = rgb_hex r1 g1 b1 :: tl
    /\ In (n1, (r1, g1, b1))
          [(50, (xff, xff, xff)); (30, (x10, x20, x30));
           (5, (x10, x20, x30)); (15, (x00, x00, x00))]
    /\ near_white r1 g1 b1 = false
    /\ forall n2 r2 g2 b2,
         In (n2, (r2, g2, b2))
            [(50, (xff, xff, xff)); (30, (x10, x20, x30));
             (5, (x10, x20, x30)); (15, (x00, x00, x00))] ->
         near_white r2 g2 b2 = false ->
         n2 <= n1.
Proof.
  apply (_extract_top4_from_file_dominant_first sample_pillow "/img.png"
           sample_disk [x01]
           (mkQuantized
              [xff; xff; xff; x10; x20; x30; x10; x20; x30; x00; x00; x00]
              [(50, 0); (30, 1); (5, 2); (15, 3)])
           _ _ 15 x00 x00 x00);
    [vm_compute; reflexivity|vm_compute; reflexivity|vm_compute; reflexivity
    |vm_compute; reflexivity|simpl; tauto|reflexivity].
Defined.

(** ** Downloads and the image mode of [extract_top4] *)

Lemma with_files_id (w : World) : with_files w (files w) = w.
Proof. by destruct w. Qed.

Lemma write_chunks_world (out : string) (chunks : list (list byte))
  (w : World) (data : list byte) :
  files w !! out = Some data ->
  fold_left (write_chunk out) chunks w
  = with_files w (<[out := data ++ concat chunks]> (files w)).
Proof.
  revert w data. induction chunks as [|chunk chunks IH]; intros w data Hw; simpl.
  - rewrite app_nil_r, insert_id by done. by rewrite with_files_id.
  - unfold write_chunk at 2. case_bool_decide as Hc.
    + subst chunk. by apply IH.
    + rewrite (IH _ (data ++ chunk)).
      * unfold with_files. simpl. by rewrite insert_insert_eq, <- app_assoc.
      * simpl. rewrite Hw. simpl. by rewrite lookup_insert_eq.
Qed.

Lemma _download_image_complete (url cache_dir : string) (w : World)
  (chunks : list (list byte)) :
  has_surrogate (list_ascii_of_string url) = false ->
  download_target url cache_dir ∉ dirs w ->
  network w url = Body chunks true ->
  _download_image url cache_dir w
  = (Return (download_target url cache_dir),
     with_files w (<[download_target url cache_dir := concat chunks]> (files w))).
Proof.
  intros Hs Hd Hnet. unfold _download_image, encode_utf8. rewrite Hs, Hnet.
  rewrite bool_decide_eq_false_2 by done.
  rewrite (write_chunks_world _ chunks _ []); simpl.
  - unfold with_files. simpl. by rewrite insert_insert_eq.
  - by rewrite lookup_insert_eq.
Qed.

(** The suffix of a URL is measured in characters, as [len] does: a suffix
    of four characters that takes seven bytes is kept. *)
Example download_target_accented :
  download_target accented_url "/c"
  = "/c/" +:+ MD5.hexdigest (list_byte_of_string accented_url)
    +:+ Pathlib.suffix accented_url
  /\ len_str (Pathlib.suffix accented_url) = 4
  /\ String.length (Pathlib.suffix accented_url) = 7%nat.
Proof. vm_compute. done. Qed.



(** X18. [download_url] writes all of the body or nothing: when it raises, the
    world is as it was; when it returns, the file holds the whole body. *)
Theorem download_url_all_or_nothing (url out_path : string) (w : World) :
  (forall e w', download_url url out_path w = (Raise e, w') -> w' = w)
  /\ (forall w', download_url url out_path w = (Return tt, w') ->
        exists chunks,
          network w url = Body chunks true
          /\ read_bytes out_path w' = Return (concat chunks)
          /\ forall p, p <> out_path -> files w' !! p = files w !! p).
Proof.
  unfold download_url.
  destruct (network w url) as [| |chunks [|]]; simpl;
    try (split; intros; congruence).
  case_bool_decide; [split; intros; congruence|].
  split; [intros; congruence|].
  intros w' [= <-]. exists chunks. split; [done|].
  unfold read_bytes. simpl. rewrite lookup_insert_eq. split; [done|].
  intros p Hp. by rewrite lookup_insert_ne.
Qed.

Lemma _extract_top4_from_file_content
  (quantize : list byte -> option Quantized) (p1 p2 : string) (w1 w2 : World) :
  read_bytes p1 w1 = read_bytes p2 w2 ->
  _extract_top4_from_file quantize p1 w1 = _extract_top4_from_file quantize p2 w2.
Proof. intros H. unfold _extract_top4_from_file. by rewrite H. Qed.

Section ImageMode.

Variable quantize : list byte -> option Quantized.

(** The result of an image-mode call whose body arrives whole. *)
Lemma extract_top4_image_result (s : string) (cache_dir : option string)
  (w w0 : World) (cache_path : string) (chunks : list (list byte)) :
  String.prefix "http://" s || String.prefix "https://" s = true ->
  has_surrogate (list_ascii_of_string s) = false ->
  _ensure_cache_dir cache_dir w = (Return cache_path, w0) ->
  download_target s cache_path ∉ dirs w ->
  network w s = Body chunks true ->
  (extract_top4 quantize s cache_dir w).1
  = _extract_top4_from_file quantize (download_target s cache_path)
      (with_files w0 (<[download_target s cache_path := concat chunks]> (files w0))).
Proof.
  intros Hurl Hs Hdir Hd Hnet. unfold extract_top4.
  rewrite falsy_is_empty, Hurl, Hdir. cbn [negb].
  destruct (_ensure_cache_dir_world _ _ _ _ Hdir) as (_ & Hn & _).
  assert (Hd0 : download_target s cache_path ∉ dirs w0).
  { pose proof (download_target_dir _ _ _ _ s Hdir) as Hb.
    rewrite (bool_decide_eq_false_2 _ Hd) in Hb.
    by apply bool_decide_eq_false in Hb. }
  rewrite (_download_image_complete _ _ _ chunks) by (done || by rewrite Hn).
  done.
Qed.

(** What [_download_image] raises, [extract_top4] raises. *)
Lemma extract_top4_download_fails (s : string) (cache_dir : option string)
  (w w0 : World) (cache_path : string) (e : exn) :
  String.prefix "http://" s || String.prefix "https://" s = true ->
  _ensure_cache_dir cache_dir w = (Return cache_path, w0) ->
  (_download_image s cache_path w0).1 = Raise e ->
  (extract_top4 quantize s cache_dir w).1 = Raise e.
Proof.
  intros Hurl Hdir He. unfold extract_top4.
  rewrite falsy_is_empty, Hurl, Hdir. cbn [negb].
  destruct (_download_image s cache_path w0) as [[p|e'] w1];
    simpl in He; [discriminate|]. by injection He as ->.
Qed.

(** X15. What an image-mode call raises: [UnicodeEncodeError] when the URL has
    no UTF-8 encoding; otherwise [requests]' error when the server cannot be
    reached, the HTTP error on a bad status, [OSError] when a body arrives
    and the target is a directory; otherwise the stream error when the body
    breaks off, Pillow's error when the whole body is no image. *)
Theorem extract_top4_image_errors (s : string) (cache_dir : option string)
  (w w0 : World) (cache_path : string) :
  String.prefix "http://" s || String.prefix "https://" s = true ->
  _ensure_cache_dir cache_dir w = (Return cache_path, w0) ->
  (has_surrogate (list_ascii_of_string s) = true ->
   (extract_top4 quantize s cache_dir w).1 = Raise UnicodeEncodeError)
  /\ (has_surrogate (list_ascii_of_string s) = false ->
      (network w s = Unreachable ->
       (extract_top4 quantize s cache_dir w).1 = Raise RequestException)
      /\ (network w s = BadStatus ->
          (extract_top4 quantize s cache_dir w).1 = Raise HTTPError)
      /\ (forall chunks complete,
            network w s = Body chunks complete ->
            download_target s cache_path ∈ dirs w ->
            (extract_top4 quantize s cache_dir w).1 = Raise OSError)
      /\ (forall chunks,
            network w s = Body chunks false ->
            download_target s cache_path ∉ dirs w ->
            (extract_top4 quantize s cache_dir w).1 = Raise StreamError)
      /\ (forall chunks,
            network w s = Body chunks true ->
            download_target s cache_path ∉ dirs w ->
            quantize (concat chunks) = None ->
            (extract_top4 quantize s cache_dir w).1
            = Raise UnidentifiedImageError)).
Proof.
  intros Hurl Hdir.
  destruct (_ensure_cache_dir_world _ _ _ _ Hdir) as (_ & Hn & _).
  pose proof (extract_top4_download_fails s cache_dir w w0 cache_path) as Hfail.
  pose proof (download_target_dir _ _ _ _ s Hdir) as Hd0.
  split.
  { intros Hs. apply Hfail; [done..|].
    unfold _download_image, encode_utf8. by rewrite Hs. }
  intros Hs. split; [|split; [|split; [|split]]].
  - intros Hnet. apply Hfail; [done..|].
    unfold _download_image, encode_utf8. by rewrite Hs, Hn, Hnet.
  - intros Hnet. apply Hfail; [done..|].
    unfold _download_image, encode_utf8. by rewrite Hs, Hn, Hnet.
  - intros chunks complete Hnet Hd. apply Hfail; [done..|].
    unfold _download_image, encode_utf8. rewrite Hs, Hn, Hnet, Hd0.
    by rewrite bool_decide_eq_true_2.
  - intros chunks Hnet Hd. apply Hfail; [done..|].
    unfold _download_image, encode_utf8. rewrite Hs, Hn, Hnet, Hd0.
    by rewrite bool_decide_eq_false_2.
  - intros chunks Hnet Hd Hq.
    rewrite (extract_top4_image_result _ _ _ _ _ _ Hurl Hs Hdir Hd Hnet).
    unfold _extract_top4_from_file, read_bytes. simpl.
    rewrite lookup_insert_eq. simpl. by rewrite Hq.
Qed.

(** X16. The palette of an image-mode call is fixed by the bytes of the image:
    two calls for URLs that have a UTF-8 encoding, whose targets are no
    directories, whose bodies arrive whole and hold the same bytes return
    the same result, whatever the addresses, the chunking, the cache
    directories and the rest of the two worlds. *)
Theorem extract_top4_same_bytes (s1 s2 : string)
  (cache_dir1 cache_dir2 : option string) (w1 w2 w1' w2' : World)
  (p1 p2 : string) (chunks1 chunks2 : list (list byte)) :
  String.prefix "http://" s1 || String.prefix "https://" s1 = true ->
  String.prefix "http://" s2 || String.prefix "https://" s2 = true ->
  has_surrogate (list_ascii_of_string s1) = false ->
  has_surrogate (list_ascii_of_string s2) = false ->
  _ensure_cache_dir cache_dir1 w1 = (Return p1, w1') ->
  _ensure_cache_dir cache_dir2 w2 = (Return p2, w2') ->
  download_target s1 p1 ∉ dirs w1 ->
  download_target s2 p2 ∉ dirs w2 ->
  network w1 s1 = Body chunks1 true ->
  network w2 s2 = Body chunks2 true ->
  concat chunks1 = concat chunks2 ->
  (extract_top4 quantize s1 cache_dir1 w1).1
  = (extract_top4 quantize s2 cache_dir2 w2).1.
Proof.
  intros Hu1 Hu2 Hs1 Hs2 Hd1 Hd2 Ht1 Ht2 Hn1 Hn2 Hsame.
  rewrite (extract_top4_image_result _ _ _ _ _ _ Hu1 Hs1 Hd1 Ht1 Hn1).
  rewrite (extract_top4_image_result _ _ _ _ _ _ Hu2 Hs2 Hd2 Ht2 Hn2).
  apply _extract_top4_from_file_content.
  unfold read_bytes. simpl. rewrite !lookup_insert_eq. by rewrite Hsame.
Qed.


End ImageMode.

Lemma extract_top4_image_errors_witness :
  (extract_top4 no_pillow "https://example.com/a.png" None online).1
  = Raise UnidentifiedImageError.
Proof.
  apply (proj2 (proj2 (proj2 (proj2
           (proj2 (extract_top4_image_errors no_pillow
                     "https://example.com/a.png" None online _ _
                     eq_refl eq_refl) eq_refl)))) [[x01]]);
    [reflexivity|apply not_elem_of_empty|reflexivity].
Defined.

Lemma extract_top4_same_bytes_witness :
  (extract_top4 sample_pillow "https://example.com/a.png" None online).1
  = (extract_top4 sample_pillow "http://cdn.example.org/b" (Some "/tmp/c"%string)
       online_chunked).1.
Proof.
  eapply (extract_top4_same_bytes sample_pillow);
    [reflexivity|reflexivity|reflexivity|reflexivity|reflexivity|reflexivity
    |apply not_elem_of_empty|apply not_elem_of_empty
    |reflexivity|reflexivity|reflexivity].
Defined.


(** ** The polling loop *)

Section Polling.

Variable quantize : list byte -> option Quantized.


Lemma truthy_not_empty (a : string) : truthy a = true -> a <> ""%string.
Proof. unfold truthy. destruct (String.eqb_spec a ""); [discriminate|done]. Qed.





(** X20. An extraction that fails leaves the rotation state as it was and emits
    nothing; the next poll, in whatever world it then finds, therefore
    extracts the artwork again, and when that succeeds the phase starts at 0
    with the colours extracted. *)
Theorem poll_failed_extraction_retried (state : _RotationState) (a : string)
  (e : exn) (w w' : World) :
  truthy a = true ->
  prev_art state <> Some a ->
  extract_top4 quantize a None w = (Raise e, w') ->
  poll quantize state (Some a) w = (state, mkEmitted [] None, w')
  /\ forall later colours w'',
       extract_top4 quantize a None later = (Return colours, w'') ->
       (poll quantize (poll quantize state (Some a) w).1.1 (Some a) later).1.1
       = mkRotationState (Some a) 0 colours
       /\ (poll quantize (poll quantize state (Some a) w).1.1 (Some a) later).2
          = w''.
Proof.
  intros Ha Hne Hext.
  assert (Hfirst : poll quantize state (Some a) w
                   = (state, mkEmitted [] None, w')).
  { unfold poll. rewrite Ha.
    rewrite bool_decide_eq_false_2 by congruence. by rewrite Hext. }
  split; [done|].
  intros later colours w'' Hext'. rewrite Hfirst. simpl.
  by apply (poll_new quantize state a later w'' colours).
Qed.

Lemma poll_emits_state (state1 : _RotationState) :
  List.length (base state1) = 4%nat ->
  0 <= rotation state1 < 4 ->
  generate_pattern
    (drop (Z.to_nat (rotation state1)) (base state1)
     ++ take (Z.to_nat (rotation state1)) (base state1)) 16 "repeat"
  = Some (Return (concat (replicate 4
       (drop (Z.to_nat (rotation state1)) (base state1)
        ++ take (Z.to_nat (rotation state1)) (base state1))))).
Proof.
  intros Hb Hr.
  set (rot := drop _ _ ++ take _ _).
  assert (Hrot : List.length rot = 4%nat)
    by (subst rot; rewrite length_app, length_drop, length_take; lia).
  pose proof (generate_pattern_copies rot "repeat" 4) as H.
  change (cycle_of "repeat" (take 4 rot)) with (take 4 rot) in H.
  rewrite (firstn_all2 rot) in H by lia. rewrite Hrot in H.
  apply H; [lia|unfold recognized; tauto].
Qed.

(** X21. What a poll hands to the printer and the snapshot when the base has four
    colours: the base rotated left by the phase, and sixteen elements that
    are four copies of it, both for a repeated artwork (phase advanced by
    one) and for a new one (phase 0, the palette as extracted). *)
Theorem poll_emits (X : string) (r : Z) (b : list string) (w : World) :
  truthy X = true ->
  List.length b = 4%nat ->
  0 <= r < 4 ->
  (poll quantize (mkRotationState (Some X) r b) (Some X) w).1.2
  = mkEmitted
      (drop (Z.to_nat ((r + 1) mod 4)) b ++ take (Z.to_nat ((r + 1) mod 4)) b)
      (Some (concat (replicate 4
         (drop (Z.to_nat ((r + 1) mod 4)) b
          ++ take (Z.to_nat ((r + 1) mod 4)) b))))
  /\ forall state Y pY w1 w2,
       truthy Y = true ->
       prev_art state <> Some Y ->
       extract_top4 quantize Y None w1 = (Return pY, w2) ->
       List.length pY = 4%nat ->
       (poll quantize state (Some Y) w1).1.2
       = mkEmitted pY (Some (concat (replicate 4 pY))).
Proof.
  intros HX Hb Hr. split.
  - unfold poll. rewrite HX. rewrite bool_decide_eq_true_2 by done.
    cbv zeta. cbn [rotation base].
    assert (Hm : 0 <= (r + 1) mod 4 < 4) by (apply Z.mod_pos_bound; lia).
    pose proof (poll_emits_state
                  (mkRotationState (Some X) ((r + 1) mod 4) b) Hb Hm) as H.
    cbn [rotation base] in H. cbn [prev_art]. by rewrite H.
  - intros state Y pY w1 w2 HY Hne Hext HpY.
    unfold poll. rewrite HY. rewrite bool_decide_eq_false_2 by congruence.
    rewrite Hext. cbv zeta. cbn [rotation base].
    pose proof (poll_emits_state (mkRotationState (Some Y) 0 pY) HpY) as H.
    cbn [rotation base] in H. rewrite H by lia.
    simpl. by rewrite app_nil_r.
Qed.


End Polling.

Lemma poll_failed_extraction_retried_witness :
  poll sample_pillow fresh (Some "https://example.com/a.png"%string) offline
  = (fresh, mkEmitted [] None,
     mkWorld ∅ ({["/repo/cache/images"%string]} ∪ ∅) (fun _ => Unreachable) "/repo")
  /\ (poll sample_pillow
        (poll sample_pillow fresh (Some "https://example.com/a.png"%string)
           offline).1.1
        (Some "https://example.com/a.png"%string) back_online).1.1
     = mkRotationState (Some "https://example.com/a.png"%string) 0
         ["#102030"; "#000000"; "#55A540"; "#08AD1B"]%string.
Proof.
  assert (H := poll_failed_extraction_retried sample_pillow fresh
                 "https://example.com/a.png" RequestException offline
                 (mkWorld ∅ ({["/repo/cache/images"%string]} ∪ ∅)
                    (fun _ => Unreachable) "/repo")
                 eq_refl ltac:(discriminate) eq_refl).
  split; [exact (proj1 H)|].
  refine (proj1 (proj2 H back_online
                   ["#102030"; "#000000"; "#55A540"; "#08AD1B"]%string
                   (extract_top4 sample_pillow "https://example.com/a.png"
                      None back_online).2 _)).
  vm_compute. reflexivity.
Defined.

Lemma poll_emits_witness :
  (poll no_pillow (mkRotationState (Some "album-42"%string) 1 album_42)
     (Some "album-42"%string) offline).1.2
  = mkEmitted
      (drop (Z.to_nat ((1 + 1) mod 4)) album_42
       ++ take (Z.to_nat ((1 + 1) mod 4)) album_42)
      (Some (concat (replicate 4
         (drop (Z.to_nat ((1 + 1) mod 4)) album_42
          ++ take (Z.to_nat ((1 + 1) mod 4)) album_42)))).
Proof.
  apply (poll_emits no_pillow "album-42" 1 album_42 offline);
    [reflexivity|reflexivity|lia].
Defined.


Lemma download_url_all_or_nothing_witness :
  mkWorld ∅ ∅ (fun _ => Body [[x01; x02]] false) "/repo"
  = mkWorld ∅ ∅ (fun _ => Body [[x01; x02]] false) "/repo".
Proof.
  apply (proj1 (download_url_all_or_nothing "https://example.com/a.png"
                  "/tmp/art.png"
                  (mkWorld ∅ ∅ (fun _ => Body [[x01; x02]] false) "/repo"))
           StreamError).
  reflexivity.
Defined.

(** ** The artwork of a playback object *)

Module JsonFacts.
Import Json.

Lemma truthy_default (o : option json) :
  jtruthy (default JNone o) = true -> o = Some (default JNone o).
Proof. destruct o; [done|discriminate]. Qed.

Lemma dict_with_key_truthy (d : gmap string json) (k : string) (v : json) :
  d !! k = Some v -> jtruthy (JDict d) = true.
Proof.
  intros Hk. simpl. rewrite bool_decide_eq_false_2; [done|].
  intros Hdom. apply (elem_of_dom_2 d k v) in Hk.
  rewrite Hdom in Hk. by apply not_elem_of_empty in Hk.
Qed.

Lemma run_loop_art_spec (playback : json) :
  run_loop_art playback
  = match get_artwork_url playback with
    | inr art => art
    | inl _ => JNone
    end.
Proof.
  unfold run_loop_art, get_artwork_url.
  destruct (jtruthy playback) eqn:Hp; cbn [negb]; [|done].
  destruct playback as [| | | | | |d]; try done.
  cbn [jget jbind jitem].
  destruct (d !! "item") as [item|]; cbn [default from_option id]; [|done].
  destruct (jtruthy item) eqn:Hitem; cbn [negb jbind]; [|done].
  destruct item as [| | | | | |di]; try done.
  cbn [jget jbind jitem].
  assert (Hempty : jbind (jget (JDict ∅) "images")
            (fun images =>
               if negb (jtruthy (jor images (JList []))) then inr JNone
               else jbind (jfirst (jor images (JList [])))
                      (fun first => jget first "url")) = inr JNone).
  { cbn [jget jbind]. rewrite lookup_empty. done. }
  destruct (di !! "album") as [album|]; cbn [default from_option id];
    [|change (jor JNone (JDict ∅)) with (JDict ∅); by rewrite Hempty].
  destruct (jtruthy album) eqn:Halbum; cbn [negb jbind].
  - assert (Htruthy : jor album (JDict ∅) = album)
      by (unfold jor; by rewrite Halbum).
    rewrite Htruthy.
    destruct (jget album "images") as [e|images]; cbn [jbind]; [done|].
    destruct (jtruthy (jor images (JList []))); cbn [negb]; [|done].
    by destruct (jfirst _) as [e|first]; cbn [jbind];
      [|destruct (jget first "url")].
  - assert (Hfalsy : jor album (JDict ∅) = JDict ∅)
      by (unfold jor; by rewrite Halbum).
    rewrite Hfalsy. by rewrite Hempty.
Qed.

(** X23. The walk written inline in [run_loop] finds what [get_artwork_url]
    returns, and finds nothing where [get_artwork_url] raises. *)
Theorem run_loop_art_agrees (playback : json) :
  run_loop_art playback
  = match get_artwork_url playback with
    | inr art => art
    | inl _ => JNone
    end.
Proof. apply run_loop_art_spec. Qed.

(** X24. On a playback object of the expected shape both walks find the address
    of the first image, whatever follows it in the list. *)
Theorem get_artwork_url_first_image (d it al im : gmap string json)
  (rest : list json) (u : string) :
  d !! "item"%string = Some (JDict it) ->
  it !! "album"%string = Some (JDict al) ->
  al !! "images"%string = Some (JList (JDict im :: rest)) ->
  im !! "url"%string = Some (JStr u) ->
  get_artwork_url (JDict d) = inr (JStr u)
  /\ run_loop_art (JDict d) = JStr u.
Proof.
  intros Hd Hit Hal Him.
  assert (H : get_artwork_url (JDict d) = inr (JStr u)).
  { unfold get_artwork_url.
    rewrite (dict_with_key_truthy d _ _ Hd). cbn [negb jget jbind].
    rewrite Hd. cbn [default from_option id].
    rewrite (dict_with_key_truthy it _ _ Hit). cbn [negb jget jbind].
    rewrite Hit. cbn [default from_option id].
    assert (Hj : jor (JDict al) (JDict ∅) = JDict al)
      by (unfold jor; by rewrite (dict_with_key_truthy al _ _ Hal)).
    rewrite Hj. cbn [jget jbind].
    rewrite Hal. cbn [default from_option id]. unfold jor.
    cbn [jtruthy negb jfirst jbind jget].
    by rewrite Him. }
  split; [done|]. by rewrite run_loop_art_spec, H.
Qed.

(** X25. A playback object with a piece missing gives [None], not an error: a
    false value for the object itself, no [item], no [album] in the item, no
    [images] in the album, or an empty list of images. *)
Theorem get_artwork_url_missing (playback : json) (d it al : gmap string json) :
  (jtruthy playback = false -> get_artwork_url playback = inr JNone)
  /\ (d !! "item"%string = None -> get_artwork_url (JDict d) = inr JNone)
  /\ (d !! "item"%string = Some (JDict it) ->
      it !! "album"%string = None ->
      get_artwork_url (JDict d) = inr JNone)
  /\ (d !! "item"%string = Some (JDict it) ->
      it !! "album"%string = Some (JDict al) ->
      al !! "images"%string = None \/ al !! "images"%string = Some (JList []) ->
      get_artwork_url (JDict d) = inr JNone).
Proof.
  split; [|split; [|split]].
  - intros H. unfold get_artwork_url. by rewrite H.
  - intros H. unfold get_artwork_url.
    destruct (jtruthy (JDict d)); cbn [negb jget jbind]; [|done].
    by rewrite H.
  - intros Hd Hit. unfold get_artwork_url.
    rewrite (dict_with_key_truthy d _ _ Hd). cbn [negb jget jbind].
    rewrite Hd. cbn [default from_option id].
    destruct (jtruthy (JDict it)); cbn [negb jget jbind]; [|done].
    rewrite Hit. done.
  - intros Hd Hit Himages. unfold get_artwork_url.
    rewrite (dict_with_key_truthy d _ _ Hd). cbn [negb jget jbind].
    rewrite Hd. cbn [default from_option id].
    rewrite (dict_with_key_truthy it _ _ Hit). cbn [negb jget jbind].
    rewrite Hit. cbn [default from_option id].
    destruct (jtruthy (JDict al)) eqn:Hal.
    + assert (Hj : jor (JDict al) (JDict ∅) = JDict al)
        by (unfold jor; by rewrite Hal).
      rewrite Hj. cbn [jget jbind].
      destruct Himages as [-> | ->]; done.
    + assert (Hj : jor (JDict al) (JDict ∅) = JDict ∅)
        by (unfold jor; by rewrite Hal).
      rewrite Hj. cbn [jget jbind]. rewrite lookup_empty. done.
Qed.

End JsonFacts.

Lemma get_artwork_url_first_image_witness :
  Json.get_artwork_url
    (Json.JDict {[ "item"%string :=
       Json.JDict {[ "album"%string :=
         Json.JDict {[ "images"%string :=
           Json.JList [Json.JDict {[ "url"%string := Json.JStr "https://i.scdn.co/image/1" ]};
                       Json.JDict {[ "url"%string := Json.JStr "https://i.scdn.co/image/2" ]}] ]} ]} ]})
  = inr (Json.JStr "https://i.scdn.co/image/1")
  /\ Json.run_loop_art
    (Json.JDict {[ "item"%string :=
       Json.JDict {[ "album"%string :=
         Json.JDict {[ "images"%string :=
           Json.JList [Json.JDict {[ "url"%string := Json.JStr "https://i.scdn.co/image/1" ]};
                       Json.JDict {[ "url"%string := Json.JStr "https://i.scdn.co/image/2" ]}] ]} ]} ]})
  = Json.JStr "https://i.scdn.co/image/1".
Proof.
  eapply JsonFacts.get_artwork_url_first_image; reflexivity.
Defined.

Lemma get_artwork_url_missing_witness :
  Json.get_artwork_url (Json.JList []) = inr Json.JNone
  /\ Json.get_artwork_url
       (Json.JDict {[ "device"%string := Json.JStr "phone" ]}) = inr Json.JNone.
Proof.
  split.
  - apply (proj1 (JsonFacts.get_artwork_url_missing (Json.JList []) ∅ ∅ ∅)).
    reflexivity.
  - apply (proj1 (proj2 (JsonFacts.get_artwork_url_missing Json.JNone
                           {[ "device"%string := Json.JStr "phone" ]} ∅ ∅))).
    reflexivity.
Defined.

(** ** The [.env] loader and the credentials *)

Module AuthFacts.
Import Auth.

Section Loader.

Variable strip : string -> string.

Lemma load_lines_keeps (lines : list string) (environ : gmap string string)
  (k v : string) :
  environ !! k = Some v ->
  load_lines strip lines environ !! k = Some v.
Proof.
  revert environ. induction lines as [|line rest IH]; intros environ Hk;
    [done|].
  cbn [load_lines]. cbv zeta.
  destruct (negb (truthy (strip line)) || String.prefix "#" (strip line));
    [by apply IH|].
  destruct (negb (contains_eq (strip line))); [by apply IH|].
  destruct (split_eq (list_ascii_of_string (strip line))) as [key val].
  destruct (truthy _ && negb (bool_decide (is_Some (environ !! _)))) eqn:Hset;
    [|by apply IH].
  destruct (has_nul _ || has_nul _); [done|].
  apply IH. rewrite lookup_insert_ne; [done|].
  intros <-. apply andb_true_iff in Hset. destruct Hset as [_ Hnew].
  apply negb_true_iff, bool_decide_eq_false in Hnew. apply Hnew.
  rewrite Hk. eauto.
Qed.

(** X26. [_load_dotenv] overwrites no variable of the environment: what was set
    before the file is read has the same value afterwards. *)
Theorem _load_dotenv_keeps (file : option (list string))
  (environ : gmap string string) (k v : string) :
  environ !! k = Some v ->
  _load_dotenv strip file environ !! k = Some v.
Proof.
  destruct file as [lines|]; [apply load_lines_keeps|done].
Qed.

Lemma load_lines_twice (lines : list string) (environ : gmap string string) :
  load_lines strip lines (load_lines strip lines environ)
  = load_lines strip lines environ.
Proof.
  revert environ. induction lines as [|line rest IH]; intros environ; [done|].
  cbn [load_lines]. cbv zeta.
  destruct (negb (truthy (strip line)) || String.prefix "#" (strip line));
    [apply IH|].
  destruct (negb (contains_eq (strip line))); [apply IH|].
  destruct (split_eq (list_ascii_of_string (strip line))) as [key val].
  set (k := strip (string_of_list_ascii key)).
  set (v := unquote (strip (string_of_list_ascii val))).
  destruct (truthy k) eqn:Hk; cbn [andb]; [|apply IH].
  destruct (bool_decide (is_Some (environ !! k))) eqn:Hin; cbn [negb].
  - apply bool_decide_eq_true in Hin. destruct Hin as [x Hx].
    rewrite (load_lines_keeps rest environ k x Hx).
    rewrite bool_decide_eq_true_2 by eauto. apply IH.
  - destruct (has_nul k || has_nul v) eqn:Hnul.
    + by rewrite Hin.
    + rewrite (load_lines_keeps rest (<[k := v]> environ) k v)
        by apply lookup_insert_eq.
      rewrite bool_decide_eq_true_2 by eauto. apply IH.
Qed.

(** X27. Loading the same file a second time changes nothing. *)
Theorem _load_dotenv_idempotent (file : option (list string))
  (environ : gmap string string) :
  _load_dotenv strip file (_load_dotenv strip file environ)
  = _load_dotenv strip file environ.
Proof.
  destruct file as [lines|]; [apply load_lines_twice|done].
Qed.

(** X28. The process environment wins over the file: when the three Spotify
    variables are set in the environment, [get_oauth_manager] gives the same
    answer whether or not a [.env] file was loaded first. *)
Theorem dotenv_does_not_override_credentials (file : option (list string))
  (environ : gmap string string) (id secret redirect : string)
  (client_id client_secret redirect_uri : option string)
  (scope cache_path : string) :
  environ !! "SPOTIFY_CLIENT_ID"%string = Some id ->
  environ !! "SPOTIFY_CLIENT_SECRET"%string = Some secret ->
  environ !! "SPOTIFY_REDIRECT_URI"%string = Some redirect ->
  get_oauth_manager client_id client_secret redirect_uri scope cache_path
    (_load_dotenv strip file environ)
  = get_oauth_manager client_id client_secret redirect_uri scope cache_path
      environ.
Proof.
  intros Hid Hsecret Hredirect.
  assert (Hkeep : forall k v,
             environ !! k = Some v ->
             _load_dotenv strip file environ !! k = Some v).
  { intros k v Hk. destruct file as [lines|]; [by apply load_lines_keeps|done]. }
  unfold get_oauth_manager.
  by rewrite (Hkeep _ _ Hid), (Hkeep _ _ Hsecret), (Hkeep _ _ Hredirect),
    Hid, Hsecret, Hredirect.
Qed.

End Loader.

Lemma list_ascii_of_string_app (s t : string) :
  list_ascii_of_string (s +:+ t)
  = list_ascii_of_string s ++ list_ascii_of_string t.
Proof. induction s as [|c s IH]; simpl; [done|by rewrite IH]. Qed.

Lemma unquote_between (q : ascii) (s : string) :
  q = dquote \/ q = "'"%char ->
  unquote (String q (s +:+ String q EmptyString)) = s.
Proof.
  intros Hq. unfold unquote.
  cbn [list_ascii_of_string]. rewrite list_ascii_of_string_app.
  cbn [list_ascii_of_string].
  set (l := list_ascii_of_string s).
  assert (Hstart : forall c, starts_with c (q :: l ++ [q]) = Ascii.eqb q c)
    by done.
  assert (Hend : forall c, ends_with c (q :: l ++ [q]) = Ascii.eqb q c).
  { intros c. unfold ends_with.
    change (q :: l ++ [q]) with ((q :: l) ++ [q]). by rewrite last_last. }
  rewrite !Hstart, !Hend.
  assert (Hcond : Ascii.eqb q dquote && Ascii.eqb q dquote
                  || Ascii.eqb q "'" && Ascii.eqb q "'" = true)
    by (destruct Hq as [-> | ->]; done).
  rewrite Hcond.
  change (drop 1 (q :: l ++ [q])) with (l ++ [q]).
  replace (List.length (q :: l ++ [q]) - 2)%nat with (List.length l)
    by (simpl; rewrite length_app; simpl; lia).
  rewrite take_app_length. apply string_of_list_ascii_of_string.
Qed.

(** X29. A value written between two double quotes, or between two single quotes,
    is read back without them, whatever it holds. *)
Theorem unquote_quoted (s : string) :
  unquote (String dquote (s +:+ String dquote EmptyString)) = s
  /\ unquote ("'" +:+ s +:+ "'") = s.
Proof.
  split; apply unquote_between; tauto.
Qed.

End AuthFacts.

Lemma _load_dotenv_keeps_witness :
  Auth._load_dotenv strip_ascii
    (Some ["# local settings"; "SPOTIFY_CLIENT_ID = from-file";
           "SPOTIFY_CLIENT_SECRET='s3cret'"]%string)
    {[ "SPOTIFY_CLIENT_ID"%string := "from-shell"%string ]}
    !! "SPOTIFY_CLIENT_ID"%string
  = Some "from-shell"%string.
Proof.
  apply AuthFacts._load_dotenv_keeps. reflexivity.
Defined.

Lemma dotenv_does_not_override_credentials_witness :
  Auth.get_oauth_manager None None None "user-read-playback-state" ".cache-spotify"
    (Auth._load_dotenv strip_ascii
       (Some ["SPOTIFY_CLIENT_ID=other"; "SPOTIFY_REDIRECT_URI=http://x"]%string)
       {[ "SPOTIFY_CLIENT_ID"%string := "id"%string;
          "SPOTIFY_CLIENT_SECRET"%string := "secret"%string;
          "SPOTIFY_REDIRECT_URI"%string := "http://localhost:9090"%string ]})
  = Auth.get_oauth_manager None None None "user-read-playback-state" ".cache-spotify"
      {[ "SPOTIFY_CLIENT_ID"%string := "id"%string;
         "SPOTIFY_CLIENT_SECRET"%string := "secret"%string;
         "SPOTIFY_REDIRECT_URI"%string := "http://localhost:9090"%string ]}.
Proof.
  apply (AuthFacts.dotenv_does_not_override_credentials strip_ascii _ _
           "id" "secret" "http://localhost:9090"); reflexivity.
Defined.

(** The loader on a small file: comments are skipped, names and values are
    trimmed, quotes are removed, a variable already set keeps its value. *)
Example load_dotenv_example :
  Auth._load_dotenv strip_ascii
    (Some ["# local settings"; ""; "  SPOTIFY_CLIENT_ID = from-file  ";
           "SPOTIFY_CLIENT_SECRET='s3cret'"; "no equals sign"; "=orphan";
           "SPOTIFY_CLIENT_SECRET=later"]%string)
    {[ "SPOTIFY_CLIENT_ID"%string := "from-shell"%string ]}
  = {[ "SPOTIFY_CLIENT_ID"%string := "from-shell"%string;
       "SPOTIFY_CLIENT_SECRET"%string := "s3cret"%string ]}.
Proof. vm_compute. reflexivity. Qed.
